(** * ROI analysis engine ([src/core/sync_analyzer.py]): a shallow embedding

    The engine is the class [SyncAnalyzer]: three configuration fields
    ([sampling_rate], [roi_start], [roi_end]) and methods that read them.
    Methods are embedded as computations of a state-and-exception monad
    over the record of fields, so that what a call does to [self] and
    whether it raises are both part of its value.

    Numbers.  Python [int]s (lengths, peak indices) are [Z].  Python and
    numpy [float]s are idealised as real numbers [R]: rounding, infinities
    and NaN are outside the model.  Where numpy would produce NaN or an
    infinity (the mean of an empty array, a division by a zero rate) the
    model produces the value Stdlib gives to [x / 0], which is [0]; no
    statement below relies on such a value.

    Library code.  [np.mean], [np.std], [np.var], [np.diff], [np.max],
    [np.min], [np.correlate], [np.argmax] and Python slicing are written
    out from their documented meaning.  The scipy routines ([detrend],
    [butter]+[filtfilt], [find_peaks], [resample_poly]) are parameters of
    the development: any function of the right type, free to raise. *)

From Stdlib Require Import Reals Lra Lia ZArith List Ascii String Sorted.
From stdpp Require Import gmap strings.
Import ListNotations.

Open Scope R_scope.

(** ** Exceptions and results *)

(** The three ways a call can stop.  The source raises [ValueError] at
    two places of its own; they are told apart by the raise site. *)
Inductive exn : Type :=
| InvalidRange      (* set_roi, line 33: end_time <= start_time *)
| NoRoiConfigured   (* extract_roi line 40, analyze_roi line 140 *)
| LibraryError.     (* any other exception: numpy, scipy, ZeroDivisionError *)

Inductive result (A : Type) : Type :=
| Ok (a : A)
| Raise (e : exn).

Arguments Ok {A} a.
Arguments Raise {A} e.

(** ** Python and numpy primitives *)

Module Py.

(** [int(x)] on a float: truncation toward zero. *)
Definition int (x : R) : Z :=
  if Rle_dec 0 x then Int_part x else (- Int_part (- x))%Z.

(** [round(x)] on a float: nearest integer, ties to the even one. *)
Definition round (x : R) : Z :=
  let f := Int_part x in
  let d := x - IZR f in
  if Rlt_dec d (1 / 2) then f
  else if Rlt_dec (1 / 2) d then (f + 1)%Z
  else if Z.even f then f else (f + 1)%Z.

(** Index adjustment of a slice bound (step 1): a negative bound counts
    from the end, and every bound is clipped to [0 .. len]. *)
Definition adjust (len i : Z) : Z :=
  if (i <? 0)%Z then Z.max 0 (i + len) else Z.min i len.

(** [l[start:stop]]. *)
Definition slice {A : Type} (l : list A) (start stop : Z) : list A :=
  let len := Z.of_nat (length l) in
  let s := adjust len start in
  let e := adjust len stop in
  firstn (Z.to_nat (e - s)) (skipn (Z.to_nat s) l).

(** [l[:stop]]. *)
Definition slice_to {A : Type} (l : list A) (stop : Z) : list A :=
  slice l 0 stop.

Definition sum (l : list R) : R := fold_right Rplus 0 l.

(** [np.mean(l)]. *)
Definition mean (l : list R) : R := sum l / INR (length l).

(** [np.var(l)]: the population variance (ddof = 0). *)
Definition var (l : list R) : R :=
  mean (map (fun x => (x - mean l) * (x - mean l)) l).

(** [np.std(l)]: the population standard deviation. *)
Definition std (l : list R) : R := sqrt (var l).

(** [np.diff(l)] on an integer array. *)
Fixpoint diffZ (l : list Z) : list Z :=
  match l with
  | a :: (b :: _) as t => (b - a)%Z :: diffZ t
  | _ => []
  end.

(** [np.diff(l)] on a float array. *)
Fixpoint diff (l : list R) : list R :=
  match l with
  | a :: (b :: _) as t => (b - a) :: diff t
  | _ => []
  end.

(** [np.max(l)] and [np.min(l)]: they raise on an empty array. *)
Definition max (l : list R) : result R :=
  match l with
  | [] => Raise LibraryError
  | a :: t => Ok (fold_left Rmax t a)
  end.

Definition min (l : list R) : result R :=
  match l with
  | [] => Raise LibraryError
  | a :: t => Ok (fold_left Rmin t a)
  end.

(** Element-wise comparisons produce boolean arrays. *)
Definition gtb (x y : R) : bool := if Rlt_dec y x then true else false.
Definition ltb (x y : R) : bool := if Rlt_dec x y then true else false.

(** A boolean array seen as numbers, as [np.mean] does. *)
Definition of_bool (b : bool) : R := if b then 1 else 0.

(** [np.correlate(a, v, mode='full')]:
    [c[k] = sum_n a[n + k - (len(v) - 1)] * v[n]], [a] read as [0]
    outside its bounds; raises when either array is empty. *)
Definition at0 (a : list R) (i : Z) : R :=
  if (i <? 0)%Z then 0 else nth (Z.to_nat i) a 0.

Definition correlate_full (a v : list R) : result (list R) :=
  match a, v with
  | [], _ | _, [] => Raise LibraryError
  | _, _ =>
    let lv := Z.of_nat (length v) in
    Ok (map (fun k : nat =>
               sum (map (fun n : nat =>
                           at0 a (Z.of_nat n + Z.of_nat k - (lv - 1)) * nth n v 0)
                        (seq 0 (length v))))
            (seq 0 (length a + length v - 1)))
  end.

(** [np.argmax(l)]: index of the first maximal element; raises on an
    empty array. *)
Fixpoint argmax_from (best : R) (besti i : nat) (l : list R) : nat :=
  match l with
  | [] => besti
  | x :: t =>
    if Rlt_dec best x then argmax_from x i (S i) t
    else argmax_from best besti (S i) t
  end.

Definition argmax (l : list R) : result Z :=
  match l with
  | [] => Raise LibraryError
  | a :: t => Ok (Z.of_nat (argmax_from a 0 1 t))
  end.

End Py.

(** ** The engine state and its monad *)

(** The fields of a [SyncAnalyzer] instance; [None] is Python's [None]. *)
Record SyncAnalyzer : Type := mkAnalyzer {
  sampling_rate : R;
  roi_start : option R;
  roi_end : option R
}.

(** [SyncAnalyzer(sampling_rate)]: the constructor, default rate 128.0. *)
Definition init (fs : R) : SyncAnalyzer :=
  {| sampling_rate := fs; roi_start := None; roi_end := None |}.

Definition init_default : SyncAnalyzer := init 128.0.

(** A method call: from the instance before the call to its outcome and
    the instance after it.  A raised exception keeps the assignments
    made before the raise. *)
Definition M (A : Type) : Type := SyncAnalyzer -> result A * SyncAnalyzer.

Definition ret {A : Type} (a : A) : M A := fun self => (Ok a, self).

Definition raise {A : Type} (e : exn) : M A := fun self => (Raise e, self).

Definition bind {A B : Type} (m : M A) (k : A -> M B) : M B :=
  fun self =>
    match m self with
    | (Ok a, self') => k a self'
    | (Raise e, self') => (Raise e, self')
    end.

(** Reading [self]. *)
Definition get : M SyncAnalyzer := fun self => (Ok self, self).

(** The assignments [self.f = v]. *)
Definition set_field_sampling_rate (v : R) : M unit :=
  fun self =>
    (Ok tt, {| sampling_rate := v;
               roi_start := roi_start self;
               roi_end := roi_end self |}).

Definition set_field_roi_start (v : option R) : M unit :=
  fun self =>
    (Ok tt, {| sampling_rate := sampling_rate self;
               roi_start := v;
               roi_end := roi_end self |}).

Definition set_field_roi_end (v : option R) : M unit :=
  fun self =>
    (Ok tt, {| sampling_rate := sampling_rate self;
               roi_start := roi_start self;
               roi_end := v |}).

(** A library call that may raise, made from inside a method. *)
Definition lift {A : Type} (r : result A) : M A := fun self => (r, self).

Declare Scope method_scope.
Delimit Scope method_scope with method.
Notation "'let*' x ':=' m 'in' k" := (bind m (fun x => k))
  (at level 10, x pattern, m at level 100, k at level 200) : method_scope.
Notation "m ';;' k" := (bind m (fun _ => k))
  (at level 100, k at level 200, right associativity) : method_scope.
Open Scope method_scope.

(** ** Configuration methods *)

(** [set_sampling_rate(fs)]: [self.sampling_rate = float(fs)]. *)
Definition set_sampling_rate (fs : R) : M unit :=
  set_field_sampling_rate fs.

(** [set_roi(start_time, end_time)]. *)
Definition set_roi (start_time end_time : R) : M unit :=
  if Rle_dec end_time start_time then raise InvalidRange
  else
    set_field_roi_start (Some start_time) ;;
    set_field_roi_end (Some end_time).

(** [extract_roi(signal)]. *)
Definition extract_roi {A : Type} (signal : list A) : M (list A) :=
  let* self := get in
  match roi_start self, roi_end self with
  | Some rs, Some re =>
    let start_idx := Py.int (rs * sampling_rate self) in
    let end_idx := Py.int (re * sampling_rate self) in
    let start_idx := Z.max 0 start_idx in
    let end_idx := Z.min (Z.of_nat (length signal)) end_idx in
    ret (Py.slice signal start_idx end_idx)
  | _, _ => raise NoRoiConfigured
  end.

(** [align_signals(ppg, ecg)]. *)
Definition align_signals (ppg ecg : list R) : M (list R * list R) :=
  let min_len := Z.min (Z.of_nat (length ppg)) (Z.of_nat (length ecg)) in
  ret (Py.slice_to ppg min_len, Py.slice_to ecg min_len).

(** ** The result record *)

(** [ROIResult]; [sqi] is a [dict] from names to floats. *)
Record ROIResult : Type := mkROIResult {
  start_s : R;
  end_s : R;
  n_samples : Z;
  fs : R;
  hr_bpm : option R;
  rr_mean_s : option R;
  rr_sd_s : option R;
  ptt_mean_s : option R;
  ptt_sd_s : option R;
  delay_xcorr_s : option R;
  sqi : gmap string R
}.

(** ** Filters, peaks and metrics *)

Section Engine.

(** The scipy routines the engine calls. *)
Variable coeffs : Type.
(** [butter(order, [lowc, highc], btype="band")]. *)
Variable butter : Z -> R -> R -> result coeffs.
(** [filtfilt(b, a, x)]. *)
Variable filtfilt : coeffs -> list R -> result (list R).
(** [scipy.signal.detrend(x)]. *)
Variable sp_detrend : list R -> result (list R).
(** [find_peaks(z, distance=d, prominence=p)[0]]. *)
Variable find_peaks : list R -> Z -> R -> result (list Z).
(** [resample_poly(x, up, down)]. *)
Variable resample_poly : list R -> Z -> Z -> result (list R).

(** [bandpass(x, low, high, order=4)]. *)
Definition bandpass (x : list R) (low high : R) (order : Z) : M (list R) :=
  let* self := get in
  let nyq := 0.5 * sampling_rate self in
  let lowc := low / nyq in
  let highc := high / nyq in
  let* ba := lift (butter order lowc highc) in
  lift (filtfilt ba x).

(** [detrend(x)]. *)
Definition detrend (x : list R) : M (list R) := lift (sp_detrend x).

(** [zscore(x)]. *)
Definition zscore (x : list R) : M (list R) :=
  let s := Py.std x in
  ret (map (fun xi => (xi - Py.mean x) / (if Rlt_dec 1e-12 s then s else 1.0)) x).

(** [resample_to(x, orig_fs, target_fs)]. *)
Definition resample_to (x : list R) (orig_fs target_fs : R)
  : M (list R * R) :=
  if Rlt_dec (Rabs (orig_fs - target_fs)) 1e-6 then ret (x, orig_fs)
  else
    let up := Py.round target_fs in
    let down := Py.round orig_fs in
    let g := Z.gcd up down in
    if (g =? 0)%Z then raise LibraryError
    else
      let up := (up / g)%Z in
      let down := (down / g)%Z in
      let* y := lift (resample_poly x up down) in
      ret (y, target_fs).

(** [detect_ecg_rpeaks(ecg_f)]. *)
Definition detect_ecg_rpeaks (ecg_f : list R) : M (list Z) :=
  let* self := get in
  let* z := zscore ecg_f in
  lift (find_peaks z (Py.int (0.25 * sampling_rate self)) 1.0).

(** [detect_ppg_peaks(ppg_f)]. *)
Definition detect_ppg_peaks (ppg_f : list R) : M (list Z) :=
  let* self := get in
  let* z := zscore ppg_f in
  lift (find_peaks z (Py.int (0.3 * sampling_rate self)) 0.3).

(** [compute_hr(peak_indices)]. *)
Definition compute_hr (peak_indices : list Z)
  : M (option R * option R * option R) :=
  let* self := get in
  if (length peak_indices <? 2)%nat then ret (None, None, None)
  else
    let rr := map (fun d => IZR d / sampling_rate self) (Py.diffZ peak_indices) in
    let hr := if Rlt_dec 0 (Py.mean rr) then Some (60.0 / Py.mean rr) else None in
    ret (hr, Some (Py.mean rr), Some (Py.std rr)).

(** The inner loop of [map_ptt]:
    [while j < len(ppg_idx) and ppg_idx[j] < r: j += 1].
    Each turn moves [j] one step towards [len(ppg_idx)], so
    [len(ppg_idx)] turns are always enough. *)
Fixpoint advance (turns : nat) (ppg_idx : list Z) (r : Z) (j : nat) : nat :=
  match turns with
  | O => j
  | S turns' =>
    match ppg_idx !! j with
    | Some p => if (p <? r)%Z then advance turns' ppg_idx r (S j) else j
    | None => j
    end
  end.

(** One turn of the [for r in r_idx] loop; the loop state is the cursor
    [j] and the list [ptts]. *)
Definition ptt_step (rate : R) (ppg_idx : list Z)
  (st : nat * list R) (r : Z) : nat * list R :=
  let '(j, ptts) := st in
  let j := advance (length ppg_idx) ppg_idx r j in
  match ppg_idx !! j with
  | Some p =>
    let ptt_s := IZR (p - r) / rate in
    if Rlt_dec 0.0 ptt_s then
      if Rlt_dec ptt_s 1.5 then (j, ptts ++ [ptt_s]) else (j, ptts)
    else (j, ptts)
  | None => (j, ptts)
  end.

(** [map_ptt(r_idx, ppg_idx)]. *)
Definition map_ptt (r_idx ppg_idx : list Z) : M (list R) :=
  let* self := get in
  if (length r_idx =? 0)%nat || (length ppg_idx =? 0)%nat then ret []
  else
    ret (snd (fold_left (ptt_step (sampling_rate self) ppg_idx) r_idx (O, []))).

(** [delay_by_xcorr(x, y)]. *)
Definition delay_by_xcorr (x y : list R) : M R :=
  let* self := get in
  let* x0 := zscore x in
  let* y0 := zscore y in
  let* corr := lift (Py.correlate_full y0 x0) in
  let* am := lift (Py.argmax corr) in
  let lag := (am - (Z.of_nat (length x0) - 1))%Z in
  ret (IZR lag / sampling_rate self).

(** [compute_sqi(x)]. *)
Definition compute_sqi (x : list R) : M (gmap string R) :=
  let* mx := lift (Py.max x) in
  let* mn := lift (Py.min x) in
  let rng := mx - mn + 1e-9 in
  let sat :=
    Py.mean (map (fun xi =>
                    Py.of_bool (Py.gtb xi (mx - 0.01 * rng)
                                || Py.ltb xi (mn + 0.01 * rng))) x) in
  let flat :=
    Py.mean (map (fun d => Py.of_bool (Py.ltb (Rabs d) 1e-4)) (Py.diff x)) in
  let snr_like :=
    Py.var x / (Py.mean (map Rabs (Py.diff x)) + 1e-9) in
  ret (<["snr_like" := snr_like]>
         (<["flatness" := flat]> (<["saturation" := sat]> ∅))).

(** [analyze_roi], steps 1 and 2 (lines 142-165): ROI extraction from the
    three arrays, optional detrending, filtering selected by [filt_mode].
    The value is [(t_roi, ecg_f, ppg_f)]. *)
Definition analyze_roi_condition (t ppg ecg : list R) (do_detrend : bool)
  (filt_mode : string) : M (list R * list R * list R) :=
  let* ppg_roi := extract_roi ppg in
  let* ecg_roi := extract_roi ecg in
  let* t_roi := extract_roi t in
  let* pe :=
    (if do_detrend then
       let* p := detrend ppg_roi in
       let* e := detrend ecg_roi in
       ret (p, e)
     else ret (ppg_roi, ecg_roi)) in
  let '(ppg_roi, ecg_roi) := pe in
  let* fe :=
    (if String.eqb filt_mode "default" || String.eqb filt_mode "ppg_ecg" then
       let* ecg_f := bandpass ecg_roi 5.0 15.0 4 in
       let* ppg_f := bandpass ppg_roi 0.5 5.0 4 in
       ret (ecg_f, ppg_f)
     else if String.eqb filt_mode "ppg_only" then
       let* ppg_f := bandpass ppg_roi 0.5 5.0 4 in
       ret (ecg_roi, ppg_f)
     else if String.eqb filt_mode "off" then ret (ecg_roi, ppg_roi)
     else ret (ecg_roi, ppg_roi)) in
  let '(ecg_f, ppg_f) := fe in
  ret (t_roi, ecg_f, ppg_f).

(** [analyze_roi], steps 3 to 5 and the result (lines 167-195): peaks,
    HR/RR, PTT, cross-correlation delay, SQI.  [rs] and [re] are the ROI
    bounds found by the guard of line 139: the fields are read again at
    lines 184-185, and no statement in between assigns them. *)
Definition analyze_roi_measure (rs re : R) (t_roi ecg_f ppg_f : list R)
  : M ROIResult :=
  let* r_idx := detect_ecg_rpeaks ecg_f in
  let* ppg_pk := detect_ppg_peaks ppg_f in
  let* hrs := compute_hr r_idx in
  let '(hr_bpm, rr_mean_s, rr_sd_s) := hrs in
  let* ptt_arr := map_ptt r_idx ppg_pk in
  let ptt_mean_s :=
    if (0 <? length ptt_arr)%nat then Some (Py.mean ptt_arr) else None in
  let ptt_sd_s :=
    if (0 <? length ptt_arr)%nat then Some (Py.std ptt_arr) else None in
  let* cut := align_signals ppg_f ecg_f in
  let '(ppg_cut, ecg_cut) := cut in
  let* delay_s := delay_by_xcorr ecg_cut ppg_cut in
  let* sqi := compute_sqi ppg_f in
  let* self := get in
  ret {| start_s := rs;
         end_s := re;
         n_samples := Z.of_nat (length t_roi);
         fs := sampling_rate self;
         hr_bpm := hr_bpm;
         rr_mean_s := rr_mean_s;
         rr_sd_s := rr_sd_s;
         ptt_mean_s := ptt_mean_s;
         ptt_sd_s := ptt_sd_s;
         delay_xcorr_s := Some delay_s;
         sqi := sqi |}.

(** [analyze_roi(t, ppg, ecg, do_detrend=True, filt_mode="default")]. *)
Definition analyze_roi (t ppg ecg : list R) (do_detrend : bool)
  (filt_mode : string) : M ROIResult :=
  let* self := get in
  match roi_start self, roi_end self with
  | Some rs, Some re =>
    let* c := analyze_roi_condition t ppg ecg do_detrend filt_mode in
    let '(t_roi, ecg_f, ppg_f) := c in
    analyze_roi_measure rs re t_roi ecg_f ppg_f
  | _, _ => raise NoRoiConfigured
  end.

End Engine.

Arguments bandpass {coeffs} butter filtfilt x low high order.
Arguments analyze_roi_condition {coeffs} butter filtfilt sp_detrend
  t ppg ecg do_detrend filt_mode.
Arguments analyze_roi {coeffs} butter filtfilt sp_detrend find_peaks
  t ppg ecg do_detrend filt_mode.

(** ** Read-only calls *)

(** A computation is read-only when the instance after the call is the
    instance before it, whatever the outcome. *)
Definition readonly {A : Type} (m : M A) : Prop :=
  forall self, snd (m self) = self.


(** ** Reference definitions, worded as the specification words them *)

Module Spec.

(** [round_down]: the largest integer not above [x]. *)
Definition round_down (x : R) : Z := Int_part x.

(** The samples of [l] at the indices [i] with [s <= i < e], in order
    ([0 <= s]). *)
Definition samples_between {A : Type} (l : list A) (s e : Z) : list A :=
  firstn (Z.to_nat (e - s)) (skipn (Z.to_nat s) l).

(** ROI extraction: indices by [round_down (time * fs)], start clamped
    to [0], end clamped to [len(signal)], then the sub-sequence. *)
Definition extract_roi {A : Type} (signal : list A) (self : SyncAnalyzer)
  : result (list A) :=
  match roi_start self, roi_end self with
  | Some rs, Some re =>
    let start_idx := Z.max 0 (round_down (rs * sampling_rate self)) in
    let end_idx :=
      Z.min (Z.of_nat (length signal)) (round_down (re * sampling_rate self)) in
    Ok (samples_between signal start_idx end_idx)
  | _, _ => Raise NoRoiConfigured
  end.

(** RR intervals: the differences of consecutive peak indices, each
    divided by the sampling rate. *)
Definition rr_intervals (rate : R) (peaks : list Z) : list R :=
  map (fun i : nat => IZR (nth (S i) peaks 0%Z - nth i peaks 0%Z) / rate)
      (seq 0 (length peaks - 1)).

(** z-score with the deviation floored at [1e-12]:
    [(x - mean(x)) / max(std(x), 1e-12)]. *)
Definition zscore (x : list R) : list R :=
  map (fun xi => (xi - Py.mean x) / Rmax (Py.std x) 1e-12) x.

(** Ascending index sequences. *)
Definition ascending (l : list Z) : Prop := StronglySorted Z.le l.

(** The pairing of the R-peak [r] with the PPG peak [p] is kept exactly
    when [0 < (p - r) / rate < 1.5]. *)
Definition accept (rate : R) (r p : Z) : list R :=
  let ptt_s := IZR (p - r) / rate in
  if Rlt_dec 0 ptt_s then
    if Rlt_dec ptt_s 1.5 then [ptt_s] else []
  else [].

(** The first PPG peak index strictly greater than [r]. *)
Definition first_after (ppg_idx : list Z) (r : Z) : option Z :=
  find (fun p => (r <? p)%Z) ppg_idx.

(** The first PPG peak index greater than or equal to [r]. *)
Definition first_at_or_after (ppg_idx : list Z) (r : Z) : option Z :=
  find (fun p => (r <=? p)%Z) ppg_idx.

(** PTT mapping: each R-peak is paired with the PPG peak chosen by
    [next], and the accepted transit times are collected in order. *)
Definition map_ptt_with (next : list Z -> Z -> option Z) (rate : R)
  (r_idx ppg_idx : list Z) : list R :=
  flat_map (fun r => match next ppg_idx r with
                     | Some p => accept rate r p
                     | None => []
                     end) r_idx.

(** PTT mapping as the specification words it. *)
Definition map_ptt : R -> list Z -> list Z -> list R :=
  map_ptt_with first_after.

(** [n] peak indices starting at [a], each [d] samples after the one
    before. *)
Fixpoint evenly_spaced (a d : Z) (n : nat) : list Z :=
  match n with
  | O => []
  | S k => a :: evenly_spaced (a + d) d k
  end.

End Spec.

(** * File loading ([data_loader.py])

    [DataLoader] keeps the last loaded arrays and a sampling rate.  The
    file readers ([scipy.io.loadmat], [pandas.read_csv]) are parameters:
    a path gives a dictionary of numeric matrices, or a table of numeric
    columns, or fails.  Dictionaries and tables are association lists in
    insertion order, since the case-insensitive search depends on that
    order.  [str.lower] is modelled on ASCII letters, which is all a
    MATLAB variable name can hold; other bytes are left as they are. *)

Module Loader.

(** The exceptions of the loader. *)
Inductive exn : Type :=
| LoadFailed      (* RuntimeError: the file reader raised *)
| FieldsNotFound  (* RuntimeError: no PPG or no ECG key / column *)
| KeyError        (* d[k] with k not in d *)
| TypeError.      (* float() of an array that is not a single number *)

Inductive result (A : Type) : Type :=
| Ok (a : A)
| Raise (e : exn).

Arguments Ok {A} a.
Arguments Raise {A} e.

(** [str.lower()]. *)
Definition lower_ascii (c : ascii) : ascii :=
  let n := nat_of_ascii c in
  if (65 <=? n)%nat && (n <=? 90)%nat then ascii_of_nat (n + 32) else c.

Fixpoint lower (s : string) : string :=
  match s with
  | EmptyString => EmptyString
  | String c s' => String (lower_ascii c) (lower s')
  end.

(** A [dict] with string keys, in insertion order. *)
Definition dict (V : Type) : Type := list (string * V).

Definition keys {V : Type} (d : dict V) : list string := map fst d.

(** [k in d]. *)
Definition has_key {V : Type} (d : dict V) (k : string) : bool :=
  existsb (String.eqb k) (keys d).

(** [d[k]]. *)
Definition getitem {V : Type} (d : dict V) (k : string) : result V :=
  match find (fun kv => String.eqb k (fst kv)) d with
  | Some kv => Ok (snd kv)
  | None => Raise KeyError
  end.

(** [{k.lower(): k for k in ks}]: a later key replaces an earlier one
    with the same lower-case form. *)
Definition lower_map (ks : list string) : gmap string string :=
  fold_left (fun m k => <[lower k := k]> m) ks ∅.

(** The first loop of [_find_first_key]:
    [for c in candidates: if c in d: return c]. *)
Fixpoint first_exact {V : Type} (d : dict V) (candidates : list string)
  : option string :=
  match candidates with
  | [] => None
  | c :: rest => if has_key d c then Some c else first_exact d rest
  end.

(** The second loop:
    [for c in candidates: if c.lower() in lower_map:
       return lower_map[c.lower()]]. *)
Fixpoint first_folded (lm : gmap string string) (candidates : list string)
  : option string :=
  match candidates with
  | [] => None
  | c :: rest =>
    match lm !! lower c with
    | Some k => Some k
    | None => first_folded lm rest
    end
  end.

(** [_find_first_key(d, candidates)]. *)
Definition _find_first_key {V : Type} (d : dict V) (candidates : list string)
  : option string :=
  match first_exact d candidates with
  | Some c => Some c
  | None => first_folded (lower_map (keys d)) candidates
  end.

(** A numeric array as [loadmat] returns it: a matrix, row by row. *)
Definition ndarray : Type := list (list R).

(** [_flatten_if_needed(x)]:
    [np.array(x).astype(float).squeeze().ravel()], every element in
    row-major order. *)
Definition _flatten_if_needed (x : ndarray) : list R := concat x.

(** [float(np.array(x).squeeze())]: the single element of [x]. *)
Definition to_float (x : ndarray) : result R :=
  match concat x with
  | [v] => Ok v
  | _ => Raise TypeError
  end.

(** [a or b] on optional strings: [None] and [""] are false. *)
Definition or_str (a b : option string) : option string :=
  match a with
  | Some s => if String.eqb s "" then b else Some s
  | None => b
  end.

(** [a or b] on an optional float and a float: [None] and [0.0] are
    false. *)
Definition or_float (a : option R) (b : R) : R :=
  match a with
  | Some v => if Req_dec_T v 0 then b else v
  | None => b
  end.

(** [np.arange(n) / rate]. *)
Definition arange_over (n : nat) (rate : R) : list R :=
  map (fun i : nat => INR i / rate) (seq 0 n).

(** Sorting, for [np.median]. *)
Fixpoint insert_sorted (x : R) (l : list R) : list R :=
  match l with
  | [] => [x]
  | y :: t => if Rle_dec x y then x :: y :: t else y :: insert_sorted x t
  end.

Definition sort (l : list R) : list R := fold_right insert_sorted [] l.

(** [np.median(l)]: the middle element of the sorted array, or the mean
    of the two middle ones. *)
Definition median (l : list R) : R :=
  let s := sort l in
  let n := length l in
  if Nat.even n then (nth (n / 2 - 1) s 0 + nth (n / 2) s 0) / 2
  else nth (n / 2) s 0.

(** The fields of a [DataLoader] instance. *)
Record DataLoader : Type := mkLoader {
  ppg : option (list R);
  ecg : option (list R);
  t : option (list R);
  sampling_rate : R
}.

(** [DataLoader(default_fs)]. *)
Definition init (default_fs : R) : DataLoader :=
  {| ppg := None; ecg := None; t := None; sampling_rate := default_fs |}.

(** Method calls on a loader: outcome and instance after the call. *)
Definition L (A : Type) : Type := DataLoader -> result A * DataLoader.

Definition ret {A : Type} (a : A) : L A := fun self => (Ok a, self).

Definition raise {A : Type} (e : exn) : L A := fun self => (Raise e, self).

Definition bind {A B : Type} (m : L A) (k : A -> L B) : L B :=
  fun self =>
    match m self with
    | (Ok a, self') => k a self'
    | (Raise e, self') => (Raise e, self')
    end.

Definition get : L DataLoader := fun self => (Ok self, self).

Definition lift {A : Type} (r : result A) : L A := fun self => (r, self).

(** [self.sampling_rate = v]. *)
Definition set_sampling_rate (v : R) : L unit :=
  fun self =>
    (Ok tt, {| ppg := ppg self; ecg := ecg self; t := t self;
               sampling_rate := v |}).

(** [self.ppg, self.ecg, self.t = p, e, tt]. *)
Definition set_arrays (p e tt : list R) : L unit :=
  fun self =>
    (Ok Datatypes.tt, {| ppg := Some p; ecg := Some e; t := Some tt;
               sampling_rate := sampling_rate self |}).

Declare Scope loader_scope.
Delimit Scope loader_scope with loader.
Notation "'let*' x ':=' m 'in' k" := (bind m (fun x => k))
  (at level 10, x pattern, m at level 100, k at level 200) : loader_scope.
Notation "m ';;' k" := (bind m (fun _ => k))
  (at level 100, k at level 200, right associativity) : loader_scope.

Section Readers.

Local Open Scope loader_scope.

(** [scipy.io.loadmat(path)]; [None] when it raises. *)
Variable loadmat : string -> option (dict ndarray).
(** [pandas.read_csv(path)]: the columns in order; [None] when it
    raises. *)
Variable read_csv : string -> option (dict (list R)).

(** [load_mat(mat_path, ppg_key=None, ecg_key=None, fs_key=None)]. *)
Definition load_mat (mat_path : string)
  (ppg_key ecg_key fs_key : option string)
  : L (list R * list R * list R * R) :=
  match loadmat mat_path with
  | None => raise LoadFailed
  | Some mdict =>
    let data_keys :=
      List.filter (fun kv => negb (String.prefix "__" (fst kv))) mdict in
    let ppg_key :=
      or_str ppg_key
        (_find_first_key data_keys
           ["ppg_raw"; "ppg"; "PPG"; "ppgSignal"; "ppg_signal"]) in
    let ecg_key :=
      or_str ecg_key
        (_find_first_key data_keys
           ["ecg_raw"; "ecg"; "ECG"; "ecgSignal"; "ecg_signal"]) in
    let fs_key :=
      or_str fs_key
        (_find_first_key data_keys
           ["fs"; "FS"; "sampling_rate"; "Fs"; "sample_rate"]) in
    match ppg_key, ecg_key with
    | Some ppg_key, Some ecg_key =>
      let* ppg_v := lift (getitem data_keys ppg_key) in
      let ppg := _flatten_if_needed ppg_v in
      let* ecg_v := lift (getitem data_keys ecg_key) in
      let ecg := _flatten_if_needed ecg_v in
      (match fs_key with
       | Some fs_key =>
         let* fs_v := lift (getitem data_keys fs_key) in
         let* fs_val := lift (to_float fs_v) in
         set_sampling_rate fs_val
       | None => ret Datatypes.tt
       end) ;;
      let n := Nat.min (length ppg) (length ecg) in
      let ppg := Py.slice_to ppg (Z.of_nat n) in
      let ecg := Py.slice_to ecg (Z.of_nat n) in
      let* self := get in
      let t := arange_over n (sampling_rate self) in
      set_arrays ppg ecg t ;;
      let* self := get in
      ret (t, ppg, ecg, sampling_rate self)
    | _, _ => raise FieldsNotFound
    end
  end.

(** The column guess of [load_csv]:
    [for c in candidates: if c in cols: col = colmap[c]; break]. *)
Fixpoint guess_column (cols : list string) (colmap : gmap string string)
  (candidates : list string) : option string :=
  match candidates with
  | [] => None
  | c :: rest =>
    if existsb (String.eqb c) cols then colmap !! c
    else guess_column cols colmap rest
  end.

(** [load_csv(csv_path, time_col=None, ppg_col=None, ecg_col=None,
    fs=None)]. *)
Definition load_csv (csv_path : string)
  (time_col ppg_col ecg_col : option string) (fs : option R)
  : L (list R * list R * list R * R) :=
  match read_csv csv_path with
  | None => raise LoadFailed
  | Some df =>
    let cols := map lower (keys df) in
    let colmap := lower_map (keys df) in
    let time_col :=
      match time_col with
      | None =>
        guess_column cols colmap
          ["time"; "t"; "sec"; "seconds"; "ms"; "timestamp"]
      | Some c => Some c
      end in
    let ppg_col :=
      match ppg_col with
      | None =>
        guess_column cols colmap ["ppg"; "ppg_raw"; "ppgsignal"; "ppg_signal"]
      | Some c => Some c
      end in
    let ecg_col :=
      match ecg_col with
      | None =>
        guess_column cols colmap ["ecg"; "ecg_raw"; "ecgsignal"; "ecg_signal"]
      | Some c => Some c
      end in
    match ppg_col, ecg_col with
    | Some ppg_col, Some ecg_col =>
      let* ppg := lift (getitem df ppg_col) in
      let* ecg := lift (getitem df ecg_col) in
      let n := Nat.min (length ppg) (length ecg) in
      let ppg := Py.slice_to ppg (Z.of_nat n) in
      let ecg := Py.slice_to ecg (Z.of_nat n) in
      let* tf :=
        (match time_col with
         | Some time_col =>
           let* t_col := lift (getitem df time_col) in
           let t_raw := Py.slice_to t_col (Z.of_nat n) in
           let fs :=
             match fs with
             | None =>
               if (2 <? length t_raw)%nat then
                 let dt := median (Py.diff t_raw) in
                 if Rlt_dec 0 dt then Some (1.0 / dt) else None
               else None
             | Some v => Some v
             end in
           ret (t_raw, fs)
         | None =>
           let* self := get in
           let fs := or_float fs (sampling_rate self) in
           ret (arange_over n fs, Some fs)
         end) in
      let '(t_raw, fs) := tf in
      let* self := get in
      set_sampling_rate (or_float fs (sampling_rate self)) ;;
      set_arrays ppg ecg t_raw ;;
      let* self := get in
      ret (t_raw, ppg, ecg, sampling_rate self)
    | _, _ => raise FieldsNotFound
    end
  end.

End Readers.

End Loader.

(** ** Calls that leave the instance as it was *)

Lemma readonly_ret {A : Type} (a : A) : readonly (ret a).
Proof. intros self. reflexivity. Qed.

Lemma readonly_raise {A : Type} (e : exn) : readonly (@raise A e).
Proof. intros self. reflexivity. Qed.

Lemma readonly_get : readonly get.
Proof. intros self. reflexivity. Qed.

Lemma readonly_lift {A : Type} (r : result A) : readonly (lift r).
Proof. intros self. reflexivity. Qed.

Lemma readonly_bind {A B : Type} (m : M A) (k : A -> M B) :
  readonly m -> (forall a, readonly (k a)) -> readonly (bind m k).
Proof.
  intros Hm Hk self. unfold bind.
  specialize (Hm self).
  destruct (m self) as [[a | e] self']; simpl in Hm; subst self'.
  - apply Hk.
  - reflexivity.
Qed.

Lemma readonly_if {A : Type} (b : bool) (m1 m2 : M A) :
  readonly m1 -> readonly m2 -> readonly (if b then m1 else m2).
Proof. destruct b; auto. Qed.

Lemma readonly_sumbool {A : Type} {P Q : Prop} (b : {P} + {Q}) (m1 m2 : M A) :
  readonly m1 -> readonly m2 -> readonly (if b then m1 else m2).
Proof. destruct b; auto. Qed.

Create HintDb frame.
#[export] Hint Resolve readonly_ret readonly_raise readonly_get readonly_lift
  readonly_if readonly_sumbool : frame.

(** Repeatedly splits a sequence of calls into its calls. *)
Ltac frame :=
  repeat first
    [ apply readonly_bind; [ | intros ? ]
    | match goal with
      | |- readonly (let '(_, _) := ?p in _) => destruct p
      | |- readonly (match ?o with Some _ => _ | None => _ end) => destruct o
      end
    | solve [ auto with frame ] ].

(** ** Configuration: [set_sampling_rate] and [set_roi] *)

(** C7, as the code has it: [set_sampling_rate] stores whatever rate it
    is given, positive or not, touches no other field and never raises. *)
Theorem set_sampling_rate_stores (rate : R) (self : SyncAnalyzer) :
  set_sampling_rate rate self =
  (Ok tt, {| sampling_rate := rate;
             roi_start := roi_start self;
             roi_end := roi_end self |}).
Proof. reflexivity. Qed.

(** C7, counterexample: the rate [-1] is not positive, and the call
    returns normally with [-1] stored. *)
Lemma set_sampling_rate_accepts_negative :
  -1 <= 0 /\
  set_sampling_rate (-1) init_default =
  (Ok tt, {| sampling_rate := -1; roi_start := None; roi_end := None |}).
Proof. split; [lra | reflexivity]. Qed.

(** C3: with [end_time <= start_time] the call raises [InvalidRange] and
    the instance, so its ROI bounds, is as before; with
    [start_time < end_time] it returns and both bounds are the new ones,
    whatever they were. *)
Theorem set_roi_spec (start_time end_time : R) (self : SyncAnalyzer) :
  (end_time <= start_time ->
   set_roi start_time end_time self = (Raise InvalidRange, self)) /\
  (start_time < end_time ->
   set_roi start_time end_time self =
   (Ok tt, {| sampling_rate := sampling_rate self;
              roi_start := Some start_time;
              roi_end := Some end_time |})).
Proof.
  unfold set_roi. split; intros H.
  - destruct (Rle_dec end_time start_time) as [_ | Hn]; [reflexivity | lra].
  - destruct (Rle_dec end_time start_time) as [Hle | _]; [lra | reflexivity].
Qed.

Lemma set_roi_spec_witness :
  set_roi 5 3 (mkAnalyzer 128 (Some 2) (Some 4)) =
  (Raise InvalidRange, mkAnalyzer 128 (Some 2) (Some 4)) /\
  set_roi 1 3 (mkAnalyzer 128 (Some 2) (Some 4)) =
  (Ok tt, mkAnalyzer 128 (Some 1) (Some 3)).
Proof.
  split.
  - apply (proj1 (set_roi_spec 5 3 (mkAnalyzer 128 (Some 2) (Some 4)))). lra.
  - apply (proj2 (set_roi_spec 1 3 (mkAnalyzer 128 (Some 2) (Some 4)))). lra.
Defined.

(** ** ROI extraction *)

Lemma Int_part_IZR (z : Z) : Int_part (IZR z) = z.
Proof. symmetry. apply Int_part_spec. lra. Qed.

Lemma int_IZR (z : Z) : Py.int (IZR z) = z.
Proof.
  unfold Py.int. destruct (Rle_dec 0 (IZR z)) as [_ | _].
  - apply Int_part_IZR.
  - rewrite <- opp_IZR, Int_part_IZR. lia.
Qed.

Lemma int_nonneg (x : R) : 0 <= x -> Py.int x = Int_part x /\ (0 <= Int_part x)%Z.
Proof.
  intros Hx. unfold Py.int.
  destruct (Rle_dec 0 x) as [_ | Hn]; [ | lra ].
  split; [ reflexivity | ].
  destruct (base_Int_part x) as [_ Hlo].
  assert (H : -1 < IZR (Int_part x)) by lra.
  apply lt_IZR in H. lia.
Qed.

Lemma int_neg (x : R) : x < 0 -> (Py.int x <= 0)%Z /\ (Int_part x < 0)%Z.
Proof.
  intros Hx. unfold Py.int.
  destruct (Rle_dec 0 x) as [Hp | _]; [ lra | ].
  split.
  - destruct (base_Int_part (- x)) as [_ Hlo].
    assert (H : -1 < IZR (Int_part (- x))) by lra.
    apply lt_IZR in H. lia.
  - destruct (base_Int_part x) as [Hhi _].
    assert (H : IZR (Int_part x) < 0) by lra.
    apply lt_IZR in H. lia.
Qed.

(** Both roundings give the same clamped start index. *)
Lemma clamped_start (x : R) :
  Z.max 0 (Py.int x) = Z.max 0 (Spec.round_down x).
Proof.
  unfold Spec.round_down.
  destruct (Rle_dec 0 x) as [Hp | Hn].
  - destruct (int_nonneg x Hp) as [-> _]. reflexivity.
  - destruct (int_neg x) as [H1 H2]; [ lra | lia ].
Qed.

(** A slice with bounds already inside [0 .. len] is the sub-sequence
    between them. *)
Lemma slice_in_range {A : Type} (l : list A) (s e : Z) :
  (0 <= s)%Z -> (0 <= e <= Z.of_nat (length l))%Z ->
  Py.slice l s e = Spec.samples_between l s e.
Proof.
  intros Hs He. unfold Py.slice, Spec.samples_between, Py.adjust.
  destruct (Z.ltb_spec s 0) as [? | _]; [ lia | ].
  destruct (Z.ltb_spec e 0) as [? | _]; [ lia | ].
  rewrite (Z.min_l e) by lia.
  destruct (Z.le_gt_cases s (Z.of_nat (length l))) as [Hle | Hgt].
  - rewrite Z.min_l by lia. reflexivity.
  - rewrite Z.min_r by lia.
    rewrite !skipn_all2 by lia.
    rewrite !firstn_nil. reflexivity.
Qed.

(** [extract_roi] raises [NoRoiConfigured] exactly when a bound is unset,
    and never raises anything else. *)
Lemma extract_roi_unset {A : Type} (signal : list A) (self : SyncAnalyzer) :
  (roi_start self = None \/ roi_end self = None) <->
  fst (extract_roi signal self) = Raise NoRoiConfigured.
Proof.
  unfold extract_roi, bind, get, ret, raise.
  destruct (roi_start self), (roi_end self); simpl; split;
    intros H; try reflexivity; try discriminate; auto.
  destruct H; discriminate.
Qed.

(** When the end of the ROI is not before time [0], the code returns what
    the specification describes. *)
Lemma extract_roi_agrees {A : Type} (signal : list A) (self : SyncAnalyzer)
  (rs re : R) :
  roi_start self = Some rs -> roi_end self = Some re ->
  0 <= re * sampling_rate self ->
  extract_roi signal self = (Spec.extract_roi signal self, self).
Proof.
  intros Hs He Hpos.
  unfold extract_roi, Spec.extract_roi, bind, get, ret.
  rewrite Hs, He.
  destruct (int_nonneg _ Hpos) as [Hint Hge].
  rewrite Hint, clamped_start.
  unfold Spec.round_down in *.
  rewrite slice_in_range by lia.
  reflexivity.
Qed.

(** The example of the specification: 1000 samples at 100 Hz and the ROI
    [(2.0, 4.0)] give the samples at the indices [200 .. 399]. *)
Lemma extract_roi_example {A : Type} (signal : list A) :
  length signal = 1000%nat ->
  extract_roi signal (mkAnalyzer 100.0 (Some 2.0) (Some 4.0)) =
  (Ok (firstn 200 (skipn 200 signal)), mkAnalyzer 100.0 (Some 2.0) (Some 4.0)).
Proof.
  intros Hlen.
  rewrite (extract_roi_agrees signal _ 2.0 4.0) by (simpl; (reflexivity || lra)).
  unfold Spec.extract_roi, Spec.round_down. simpl.
  replace (2.0 * 100.0) with (IZR 200) by lra.
  replace (4.0 * 100.0) with (IZR 400) by lra.
  rewrite !Int_part_IZR, Hlen. reflexivity.
Qed.

(** C4, at an ROI that ends before the signal starts: 1000 samples at
    100 Hz with the ROI [(-5.0, -3.0)].  The end index is [-300]; it is
    clamped from above only, and the slice counts it from the end of the
    signal: the call returns the first 700 samples, where the sub-sequence
    between the clamped indices [0] and [-300] has none. *)
Theorem extract_roi_negative_end :
  extract_roi (seq 0 1000) (mkAnalyzer 100.0 (Some (-5.0)) (Some (-3.0))) =
  (Ok (seq 0 700), mkAnalyzer 100.0 (Some (-5.0)) (Some (-3.0))) /\
  Spec.extract_roi (seq 0 1000) (mkAnalyzer 100.0 (Some (-5.0)) (Some (-3.0))) =
  Ok [].
Proof.
  unfold extract_roi, Spec.extract_roi, Spec.round_down, bind, get, ret. simpl.
  replace (-5.0 * 100.0) with (IZR (-500)) by lra.
  replace (-3.0 * 100.0) with (IZR (-300)) by lra.
  rewrite !int_IZR, !Int_part_IZR.
  split; vm_compute; reflexivity.
Qed.

(** ** Means and deviations *)

Lemma sum_app (l1 l2 : list R) : Py.sum (l1 ++ l2) = Py.sum l1 + Py.sum l2.
Proof.
  unfold Py.sum. induction l1 as [ | a l1 IH]; simpl; [ lra | ].
  rewrite IH. lra.
Qed.

Lemma sum_nonneg (l : list R) : Forall (fun x => 0 <= x) l -> 0 <= Py.sum l.
Proof.
  unfold Py.sum. induction 1 as [ | a l Ha _ IH]; simpl; lra.
Qed.

Lemma INR_length_pos {A : Type} (l : list A) : l <> [] -> 0 < INR (length l).
Proof.
  intros Hne. destruct l as [ | a l]; [ congruence | ].
  apply lt_0_INR. simpl. lia.
Qed.

Lemma mean_nonneg (l : list R) : Forall (fun x => 0 <= x) l -> 0 <= Py.mean l.
Proof.
  intros H. unfold Py.mean.
  destruct l as [ | a l].
  - simpl. unfold Py.sum. simpl. lra.
  - apply Rmult_le_pos; [ apply sum_nonneg; assumption | ].
    apply Rlt_le, Rinv_0_lt_compat, INR_length_pos. discriminate.
Qed.

Lemma var_nonneg (l : list R) : 0 <= Py.var l.
Proof.
  unfold Py.var. apply mean_nonneg.
  generalize (Py.mean l). intros m.
  induction l as [ | a l IH]; simpl.
  - apply Forall_nil_2.
  - apply Forall_cons_2; [ apply (Rle_0_sqr (a - m)) | exact IH ].
Qed.

(** [np.std] is the non-negative root of the mean squared deviation. *)
Lemma std_spec (l : list R) :
  0 <= Py.std l /\
  Py.std l * Py.std l =
  Py.mean (map (fun x => (x - Py.mean l) * (x - Py.mean l)) l).
Proof.
  unfold Py.std. split.
  - apply sqrt_pos.
  - apply sqrt_sqrt, var_nonneg.
Qed.

(** The mean of an array of equal values is that value. *)
Lemma sum_repeat (c : R) (n : nat) : Py.sum (repeat c n) = INR n * c.
Proof.
  unfold Py.sum. induction n as [ | n IH].
  - simpl. lra.
  - rewrite S_INR. simpl. rewrite IH. lra.
Qed.

Lemma mean_repeat (c : R) (n : nat) : (0 < n)%nat -> Py.mean (repeat c n) = c.
Proof.
  intros Hn. unfold Py.mean. rewrite sum_repeat, repeat_length.
  field. apply not_0_INR. lia.
Qed.

Lemma var_repeat (c : R) (n : nat) : (0 < n)%nat -> Py.var (repeat c n) = 0.
Proof.
  intros Hn. unfold Py.var. rewrite mean_repeat by assumption.
  replace (map (fun x => (x - c) * (x - c)) (repeat c n)) with (repeat 0 n).
  - apply mean_repeat. assumption.
  - clear Hn. induction n as [ | n IH]; simpl; [ reflexivity | ].
    rewrite <- IH. f_equal. lra.
Qed.

Lemma std_repeat (c : R) (n : nat) : (0 < n)%nat -> Py.std (repeat c n) = 0.
Proof.
  intros Hn. unfold Py.std. rewrite var_repeat by assumption. apply sqrt_0.
Qed.

(** ** Heart rate *)

(** [np.diff] read by index. *)
Lemma diffZ_nth (l : list Z) :
  Py.diffZ l =
  map (fun i : nat => (nth (S i) l 0 - nth i l 0)%Z) (seq 0 (length l - 1)).
Proof.
  induction l as [ | a [ | b t] IH]; try reflexivity.
  change (Py.diffZ (a :: b :: t)) with ((b - a)%Z :: Py.diffZ (b :: t)).
  rewrite IH. simpl length.
  replace (S (S (length t)) - 1)%nat with (S (length t)) by lia.
  replace (S (length t) - 1)%nat with (length t) by lia.
  rewrite <- cons_seq, <- seq_shift, map_cons, map_map. reflexivity.
Qed.

Lemma rr_intervals_diff (rate : R) (peaks : list Z) :
  map (fun d => IZR d / rate) (Py.diffZ peaks) = Spec.rr_intervals rate peaks.
Proof.
  unfold Spec.rr_intervals. rewrite diffZ_nth, map_map. reflexivity.
Qed.

(** C5: fewer than two peaks give three absent values.  With two or more,
    the RR intervals are the consecutive index differences over the
    rate; their mean [m] and population standard deviation [sd] (the
    non-negative root of the mean squared deviation) are reported, with
    [hr_bpm = 60 / m] when [m > 0] and absent otherwise.  On
    [[0, 128, 256, 384]] at 128 Hz: [hr_bpm = 60], [rr_mean_s = 1],
    [rr_sd_s = 0].  The call never changes the instance. *)
Theorem compute_hr_spec (peak_indices : list Z) (self : SyncAnalyzer) :
  ((length peak_indices < 2)%nat ->
   compute_hr peak_indices self = (Ok (None, None, None), self)) /\
  ((2 <= length peak_indices)%nat ->
   let rr := Spec.rr_intervals (sampling_rate self) peak_indices in
   exists m sd : R,
     m = Py.sum rr / INR (length rr) /\
     0 <= sd /\
     sd * sd = Py.sum (map (fun x => (x - m) * (x - m)) rr) / INR (length rr) /\
     compute_hr peak_indices self =
     (Ok (if Rlt_dec 0 m then Some (60 / m) else None, Some m, Some sd), self)) /\
  compute_hr [0; 128; 256; 384]%Z (init 128) =
  (Ok (Some 60, Some 1, Some 0), init 128).
Proof.
  split; [ | split ].
  - intros Hlen. unfold compute_hr, bind, get, ret.
    destruct (Nat.ltb_spec (length peak_indices) 2); [ reflexivity | lia ].
  - intros Hlen rr.
    exists (Py.mean rr), (Py.std rr).
    destruct (std_spec rr) as [Hpos Hsq].
    split; [ reflexivity | ]. split; [ assumption | ]. split.
    + rewrite Hsq. unfold Py.mean. rewrite length_map. reflexivity.
    + unfold compute_hr, bind, get, ret.
      destruct (Nat.ltb_spec (length peak_indices) 2); [ lia | ].
      rewrite rr_intervals_diff. fold rr.
      replace 60.0 with 60 by lra. reflexivity.
  - assert (Hrr : map (fun d => IZR d / sampling_rate (init 128))
                      (Py.diffZ [0; 128; 256; 384]%Z) = repeat 1 3).
    { cbn [map Py.diffZ init sampling_rate repeat].
      change (128 - 0)%Z with 128%Z. change (256 - 128)%Z with 128%Z.
      change (384 - 256)%Z with 128%Z.
      replace (128 / 128) with 1 by lra. reflexivity. }
    unfold compute_hr, bind, get, ret.
    change (length [0; 128; 256; 384]%Z <? 2)%nat with false. cbv iota.
    rewrite Hrr, std_repeat, mean_repeat by lia.
    destruct (Rlt_dec 0 1) as [_ | Hn]; [ | lra ].
    repeat f_equal. lra.
Qed.

Lemma compute_hr_spec_witness :
  compute_hr [42]%Z (init 128) = (Ok (None, None, None), init 128) /\
  exists m sd : R,
    compute_hr [0; 128; 256; 384]%Z (init 128) =
    (Ok (if Rlt_dec 0 m then Some (60 / m) else None, Some m, Some sd),
     init 128).
Proof.
  split.
  - apply (proj1 (compute_hr_spec [42]%Z (init 128))). simpl. lia.
  - destruct (proj1 (proj2 (compute_hr_spec [0; 128; 256; 384]%Z (init 128))))
      as [m [sd [_ [_ [_ H]]]]].
    + simpl. lia.
    + exists m, sd. exact H.
Defined.

(** ** Normalisation *)

(** Equality of two arrays of numbers, element by element. *)
Ltac list_eq :=
  repeat (apply (f_equal2 cons); [ lra | ]); try reflexivity.

(** What [zscore] divides by. *)
Lemma zscore_unfold (x : list R) (self : SyncAnalyzer) :
  zscore x self =
  (Ok (map (fun xi => (xi - Py.mean x) /
                      (if Rlt_dec 1e-12 (Py.std x) then Py.std x else 1.0)) x),
   self).
Proof. reflexivity. Qed.

Lemma map_const_repeat (f : R -> R) (c d : R) (n : nat) :
  f c = d -> map f (repeat c n) = repeat d n.
Proof.
  intros H. induction n as [ | n IH]; simpl; [ reflexivity | ].
  rewrite IH, H. reflexivity.
Qed.

Lemma zscore_flat (c : R) (n : nat) (self : SyncAnalyzer) :
  (0 < n)%nat -> zscore (repeat c n) self = (Ok (repeat 0 n), self).
Proof.
  intros Hn. rewrite zscore_unfold, std_repeat, mean_repeat by assumption.
  destruct (Rlt_dec 1e-12 0) as [Hlt | _]; [ lra | ].
  do 2 f_equal. apply map_const_repeat. lra.
Qed.

(** C6, as the code has it: on a non-empty segment [zscore] divides the
    centred samples by [std(x)] when [std(x) > 1e-12] and by [1.0]
    otherwise (so it returns the centred samples themselves); on a flat
    segment every output sample is [0].  It never raises. *)
Theorem zscore_spec (x : list R) (self : SyncAnalyzer) :
  x <> [] ->
  (1e-12 < Py.std x ->
   zscore x self = (Ok (map (fun xi => (xi - Py.mean x) / Py.std x) x), self)) /\
  (Py.std x <= 1e-12 ->
   zscore x self = (Ok (map (fun xi => xi - Py.mean x) x), self)) /\
  (forall c : R, x = repeat c (length x) ->
   zscore x self = (Ok (repeat 0 (length x)), self)).
Proof.
  intros Hne. split; [ | split ].
  - intros Hs. rewrite zscore_unfold.
    destruct (Rlt_dec 1e-12 (Py.std x)) as [_ | Hn]; [ | lra ].
    reflexivity.
  - intros Hs. rewrite zscore_unfold.
    destruct (Rlt_dec 1e-12 (Py.std x)) as [Hlt | _]; [ lra | ].
    do 2 f_equal. apply map_ext. intros xi. lra.
  - intros c Hx.
    assert (Hn : (0 < length x)%nat) by (destruct x; simpl; [ congruence | lia ]).
    remember (length x) as n eqn:En.
    rewrite Hx. apply zscore_flat. assumption.
Qed.

Lemma zscore_spec_witness :
  zscore [3; 3; 3] init_default = (Ok [0; 0; 0], init_default).
Proof.
  refine (proj2 (proj2 (zscore_spec [3; 3; 3] init_default _)) 3 _).
  - discriminate.
  - reflexivity.
Defined.

(** The deviation of the two samples [0] and [2e-13] is [1e-13]. *)
Lemma tiny_segment_stats :
  Py.mean [0; 2e-13] = 1e-13 /\ Py.std [0; 2e-13] = 1e-13.
Proof.
  assert (Hm : Py.mean [0; 2e-13] = 1e-13).
  { unfold Py.mean, Py.sum. simpl. lra. }
  split; [ exact Hm | ].
  unfold Py.std, Py.var. rewrite Hm.
  apply sqrt_lem_1.
  - unfold Py.mean, Py.sum. simpl. lra.
  - lra.
  - unfold Py.mean, Py.sum. simpl. lra.
Qed.

(** C6, counterexample: on the segment [[0, 2e-13]] the deviation is
    [1e-13 <= 1e-12]; the code divides by [1.0] and returns
    [[-1e-13, 1e-13]], where a deviation floored at [1e-12] gives
    [[-0.1, 0.1]]. *)
Lemma zscore_not_floored :
  zscore [0; 2e-13] init_default = (Ok [-1e-13; 1e-13], init_default) /\
  Spec.zscore [0; 2e-13] = [-0.1; 0.1] /\
  fst (zscore [0; 2e-13] init_default) <> Ok (Spec.zscore [0; 2e-13]).
Proof.
  destruct tiny_segment_stats as [Hm Hs].
  assert (H1 : zscore [0; 2e-13] init_default =
               (Ok [-1e-13; 1e-13], init_default)).
  { rewrite zscore_unfold, Hm, Hs.
    destruct (Rlt_dec 1e-12 1e-13) as [Hlt | _]; [ lra | ].
    cbn [map]. do 2 f_equal. list_eq. }
  assert (H2 : Spec.zscore [0; 2e-13] = [-0.1; 0.1]).
  { unfold Spec.zscore. rewrite Hm, Hs.
    rewrite Rmax_right by lra.
    cbn [map]. list_eq. }
  split; [ exact H1 | ]. split; [ exact H2 | ].
  rewrite H1, H2. simpl. intros Heq.
  injection Heq as Heq _. lra.
Qed.

(** ** Rate conversion *)

(** C8: when the two rates differ by less than [1e-6], [resample_to]
    returns the segment it was given and the original rate; the
    polyphase resampler is not called and the instance is unchanged. *)
Theorem resample_to_identity
  (resample_poly : list R -> Z -> Z -> result (list R))
  (x : list R) (orig_fs target_fs : R) (self : SyncAnalyzer) :
  Rabs (orig_fs - target_fs) < 1e-6 ->
  resample_to resample_poly x orig_fs target_fs self = (Ok (x, orig_fs), self).
Proof.
  intros H. unfold resample_to.
  destruct (Rlt_dec (Rabs (orig_fs - target_fs)) 1e-6) as [_ | Hn];
    [ reflexivity | contradiction ].
Qed.

Lemma resample_to_identity_witness :
  resample_to (fun _ _ _ => Raise LibraryError) [1; 2; 3] 128 128.0000001
    init_default =
  (Ok ([1; 2; 3], 128), init_default).
Proof.
  apply resample_to_identity.
  unfold Rabs. destruct (Rcase_abs (128 - 128.0000001)); lra.
Defined.

(** ** Pulse transit time *)

(** The inner loop stops, within [len(ppg_idx)] turns, at the first
    index from the cursor on whose peak is not before [r]. *)
Lemma advance_spec (ppg_idx : list Z) (r : Z) (turns : nat) :
  forall j : nat,
    (length ppg_idx <= turns + j)%nat ->
    (j <= advance turns ppg_idx r j)%nat /\
    (forall (i : nat) (p : Z),
        (j <= i < advance turns ppg_idx r j)%nat ->
        ppg_idx !! i = Some p -> (p < r)%Z) /\
    match ppg_idx !! advance turns ppg_idx r j with
    | Some p => (r <= p)%Z
    | None => True
    end.
Proof.
  induction turns as [ | turns IH]; intros j Hlen; simpl.
  - rewrite (lookup_ge_None_2 ppg_idx j) by lia.
    repeat split; [ lia | intros; lia ].
  - destruct (ppg_idx !! j) as [p | ] eqn:Ej.
    + destruct (Z.ltb_spec p r) as [Hlt | Hge].
      * destruct (IH (S j)) as (H1 & H2 & H3); [ lia | ].
        repeat split; [ lia | | exact H3 ].
        intros i q Hi Hq.
        destruct (Nat.eq_dec i j) as [-> | Hne].
        -- congruence.
        -- apply (H2 i q); [ lia | exact Hq ].
      * rewrite Ej. repeat split; [ lia | intros; lia | exact Hge ].
    + rewrite Ej. repeat split; [ lia | intros; lia ].
Qed.

(** A cursor with only earlier peaks behind it, standing on a peak not
    before [r] (or past the end), stands where a search from the start
    would stop. *)
Lemma find_at_cursor (r : Z) (ppg_idx : list Z) :
  forall j : nat,
    (forall (i : nat) (p : Z),
        (i < j)%nat -> ppg_idx !! i = Some p -> (p < r)%Z) ->
    match ppg_idx !! j with
    | Some p => (r <= p)%Z
    | None => True
    end ->
    Spec.first_at_or_after ppg_idx r = ppg_idx !! j.
Proof.
  unfold Spec.first_at_or_after.
  induction ppg_idx as [ | a t IH]; intros j Hbefore Hat.
  - reflexivity.
  - destruct j as [ | j]; simpl in *.
    + destruct (Z.leb_spec r a) as [_ | Hlt]; [ reflexivity | lia ].
    + assert (Ha : (a < r)%Z) by (apply (Hbefore O a); [ lia | reflexivity ]).
      destruct (Z.leb_spec r a) as [Hle | _]; [ lia | ].
      apply IH; [ | exact Hat ].
      intros i p Hi Hp. apply (Hbefore (S i) p); [ lia | exact Hp ].
Qed.

(** One turn of the outer loop: the cursor after the inner loop, and the
    transit time appended when the pairing is accepted. *)
Lemma ptt_step_spec (rate : R) (ppg_idx : list Z) (j : nat) (ptts : list R)
  (r : Z) :
  ptt_step rate ppg_idx (j, ptts) r =
  (advance (length ppg_idx) ppg_idx r j,
   ptts ++ match ppg_idx !! advance (length ppg_idx) ppg_idx r j with
           | Some p => Spec.accept rate r p
           | None => []
           end).
Proof.
  unfold ptt_step, Spec.accept.
  destruct (ppg_idx !! advance (length ppg_idx) ppg_idx r j) as [p | ].
  - replace 0.0 with 0 by lra.
    destruct (Rlt_dec 0 (IZR (p - r) / rate)) as [_ | _];
      [ destruct (Rlt_dec (IZR (p - r) / rate) 1.5) as [_ | _] | ];
      rewrite ?app_nil_r; reflexivity.
  - rewrite app_nil_r. reflexivity.
Qed.

(** The outer loop over ascending R-peaks. *)
Lemma ptt_loop_spec (rate : R) (ppg_idx : list Z) (r_idx : list Z) :
  Spec.ascending r_idx ->
  forall (j : nat) (ptts : list R),
    (forall (i : nat) (p : Z),
        (i < j)%nat -> ppg_idx !! i = Some p ->
        Forall (fun r => (p < r)%Z) r_idx) ->
    snd (fold_left (ptt_step rate ppg_idx) r_idx (j, ptts)) =
    ptts ++ Spec.map_ptt_with Spec.first_at_or_after rate r_idx ppg_idx.
Proof.
  unfold Spec.ascending, Spec.map_ptt_with.
  induction 1 as [ | r rest Hrest IH Hle]; intros j ptts Hbefore.
  - simpl. rewrite app_nil_r. reflexivity.
  - cbn [fold_left flat_map]. rewrite ptt_step_spec.
    destruct (advance_spec ppg_idx r (length ppg_idx) j) as (H1 & H2 & H3);
      [ lia | ].
    assert (Hlow : forall (i : nat) (p : Z),
               (i < advance (length ppg_idx) ppg_idx r j)%nat ->
               ppg_idx !! i = Some p -> (p < r)%Z).
    { intros i p Hi Hp. destruct (Nat.lt_ge_cases i j) as [Hij | Hij].
      - specialize (Hbefore i p Hij Hp). apply Forall_cons_1 in Hbefore.
        tauto.
      - apply (H2 i p); [ lia | exact Hp ]. }
    rewrite (find_at_cursor r ppg_idx _ Hlow H3).
    rewrite IH, <- app_assoc; [ reflexivity | ].
    intros i p Hi Hp. specialize (Hlow i p Hi Hp).
    eapply Forall_impl; [ exact Hle | ].
    intros r' Hr'. cbv beta in *. lia.
Qed.

(** What [map_ptt] computes on ascending R-peaks: each R-peak is paired
    with the first PPG peak at or after it. *)
Lemma map_ptt_sweep (r_idx ppg_idx : list Z) (self : SyncAnalyzer) :
  Spec.ascending r_idx ->
  map_ptt r_idx ppg_idx self =
  (Ok (Spec.map_ptt_with Spec.first_at_or_after (sampling_rate self)
         r_idx ppg_idx), self).
Proof.
  intros Hr. unfold map_ptt, bind, get, ret.
  destruct r_idx as [ | r rest]; [ reflexivity | ].
  destruct ppg_idx as [ | p ppg]; cbn [length Nat.eqb orb].
  - f_equal. f_equal. unfold Spec.map_ptt_with.
    clear Hr. generalize (r :: rest). intros l.
    induction l as [ | a l IH]; simpl; [ reflexivity | exact IH ].
  - rewrite ptt_loop_spec; [ reflexivity | exact Hr | ].
    intros i q Hi. lia.
Qed.

(** ** Sequencing *)

Lemma bind_ok {A B : Type} (m : M A) (k : A -> M B)
  (self self' : SyncAnalyzer) (a : A) :
  m self = (Ok a, self') -> bind m k self = k a self'.
Proof. intros H. unfold bind. rewrite H. reflexivity. Qed.

Lemma bind_inv {A B : Type} (m : M A) (k : A -> M B)
  (self self' : SyncAnalyzer) (b : B) :
  bind m k self = (Ok b, self') ->
  exists (a : A) (mid : SyncAnalyzer),
    m self = (Ok a, mid) /\ k a mid = (Ok b, self').
Proof.
  unfold bind. destruct (m self) as [[a | e] mid]; intros H.
  - exists a, mid. split; [ reflexivity | exact H ].
  - discriminate.
Qed.

Lemma readonly_run {A : Type} (m : M A) (self mid : SyncAnalyzer)
  (r : result A) :
  readonly m -> m self = (r, mid) -> mid = self.
Proof. intros Hm H. specialize (Hm self). rewrite H in Hm. exact Hm. Qed.

(** ** The methods that only read the instance *)

Section Frame.

Variable coeffs : Type.
Variable butter : Z -> R -> R -> result coeffs.
Variable filtfilt : coeffs -> list R -> result (list R).
Variable sp_detrend : list R -> result (list R).
Variable find_peaks : list R -> Z -> R -> result (list Z).

Lemma readonly_extract_roi {A : Type} (signal : list A) :
  readonly (extract_roi signal).
Proof. unfold extract_roi. frame. Qed.

Lemma readonly_align_signals (ppg ecg : list R) :
  readonly (align_signals ppg ecg).
Proof. unfold align_signals. frame. Qed.

Lemma readonly_bandpass (x : list R) (low high : R) (order : Z) :
  readonly (bandpass butter filtfilt x low high order).
Proof. unfold bandpass. frame. Qed.

Lemma readonly_detrend (x : list R) : readonly (detrend sp_detrend x).
Proof. unfold detrend. frame. Qed.

Lemma readonly_zscore (x : list R) : readonly (zscore x).
Proof. unfold zscore. frame. Qed.

#[local] Hint Resolve readonly_extract_roi readonly_align_signals
  readonly_bandpass readonly_detrend readonly_zscore : frame.

Lemma readonly_detect_ecg_rpeaks (ecg_f : list R) :
  readonly (detect_ecg_rpeaks find_peaks ecg_f).
Proof. unfold detect_ecg_rpeaks. frame. Qed.

Lemma readonly_detect_ppg_peaks (ppg_f : list R) :
  readonly (detect_ppg_peaks find_peaks ppg_f).
Proof. unfold detect_ppg_peaks. frame. Qed.

Lemma readonly_compute_hr (peak_indices : list Z) :
  readonly (compute_hr peak_indices).
Proof. unfold compute_hr. frame. Qed.

Lemma readonly_map_ptt (r_idx ppg_idx : list Z) :
  readonly (map_ptt r_idx ppg_idx).
Proof. unfold map_ptt. frame. Qed.

Lemma readonly_delay_by_xcorr (x y : list R) : readonly (delay_by_xcorr x y).
Proof. unfold delay_by_xcorr. frame. Qed.

Lemma readonly_compute_sqi (x : list R) : readonly (compute_sqi x).
Proof. unfold compute_sqi. frame. Qed.

#[local] Hint Resolve readonly_detect_ecg_rpeaks readonly_detect_ppg_peaks
  readonly_compute_hr readonly_map_ptt readonly_delay_by_xcorr
  readonly_compute_sqi : frame.

Lemma readonly_condition (t ppg ecg : list R) (do_detrend : bool)
  (filt_mode : string) :
  readonly (analyze_roi_condition butter filtfilt sp_detrend
              t ppg ecg do_detrend filt_mode).
Proof.
  unfold analyze_roi_condition. frame.
  - destruct do_detrend; frame.
  - repeat match goal with
           | |- readonly (if ?b then _ else _) => destruct b
           end; frame.
Qed.

Lemma readonly_measure (rs re : R) (t_roi ecg_f ppg_f : list R) :
  readonly (analyze_roi_measure find_peaks rs re t_roi ecg_f ppg_f).
Proof. unfold analyze_roi_measure. frame. Qed.

(** C9: whatever the arrays, the options and the library routines, and
    whether the call returns a result or raises, the instance after
    [analyze_roi] is the instance before it: [sampling_rate],
    [roi_start] and [roi_end] keep their values. *)
Theorem analyze_roi_frame (t ppg ecg : list R) (do_detrend : bool)
  (filt_mode : string) (self : SyncAnalyzer) :
  let after :=
    snd (analyze_roi butter filtfilt sp_detrend find_peaks
           t ppg ecg do_detrend filt_mode self) in
  sampling_rate after = sampling_rate self /\
  roi_start after = roi_start self /\
  roi_end after = roi_end self.
Proof.
  assert (H : readonly (analyze_roi butter filtfilt sp_detrend find_peaks
                          t ppg ecg do_detrend filt_mode)).
  { unfold analyze_roi.
    apply readonly_bind; [ apply readonly_get | intros s ].
    destruct (roi_start s), (roi_end s); try apply readonly_raise.
    apply readonly_bind; [ apply readonly_condition | intros [[? ?] ?] ].
    apply readonly_measure. }
  cbv zeta. rewrite (H self). repeat split.
Qed.

End Frame.

(** ** Signal quality *)

(** The mean of a boolean array is the fraction of its true entries. *)
Lemma sum_indicator {A : Type} (f : A -> bool) (l : list A) :
  Py.sum (map (fun a => Py.of_bool (f a)) l) = INR (length (List.filter f l)).
Proof.
  unfold Py.sum. induction l as [ | a l IH]; [ reflexivity | ].
  cbn [map fold_right List.filter]. rewrite IH.
  destruct (f a); unfold Py.of_bool.
  - cbn [length]. rewrite S_INR. lra.
  - lra.
Qed.

Lemma filter_shorter {A : Type} (f : A -> bool) (l : list A) :
  (length (List.filter f l) <= length l)%nat.
Proof.
  induction l as [ | a l IH]; simpl; [ lia | ].
  destruct (f a); simpl; lia.
Qed.

Lemma mean_indicator {A : Type} (f : A -> bool) (l : list A) :
  Py.mean (map (fun a => Py.of_bool (f a)) l) =
  INR (length (List.filter f l)) / INR (length l).
Proof. unfold Py.mean. rewrite sum_indicator, length_map. reflexivity. Qed.

Lemma fraction_bounds (k n : nat) :
  (k <= n)%nat -> (0 < n)%nat -> 0 <= INR k / INR n <= 1.
Proof.
  intros Hk Hn.
  assert (Hn' : 0 < INR n) by (apply lt_0_INR; exact Hn).
  assert (Hk' : 0 <= INR k <= INR n)
    by (split; [ apply pos_INR | apply le_INR; exact Hk ]).
  assert (Hi : 0 < / INR n) by (apply Rinv_0_lt_compat; exact Hn').
  assert (Hone : INR n * / INR n = 1) by (apply Rinv_r; lra).
  unfold Rdiv. split; nra.
Qed.

Lemma length_diff (x : list R) : length (Py.diff x) = (length x - 1)%nat.
Proof.
  induction x as [ | a [ | b t] IH]; try reflexivity.
  change (Py.diff (a :: b :: t)) with ((b - a) :: Py.diff (b :: t)).
  cbn [length] in *. rewrite IH. lia.
Qed.

Lemma max_min_nonempty (x : list R) :
  x <> [] -> exists mx mn : R, Py.max x = Ok mx /\ Py.min x = Ok mn.
Proof.
  destruct x as [ | a t]; [ congruence | intros _ ].
  eexists. eexists. split; reflexivity.
Qed.

(** On a non-empty segment [compute_sqi] returns, and its dictionary has
    the three keys. *)
Lemma compute_sqi_returns (x : list R) (self : SyncAnalyzer) :
  x <> [] ->
  exists d : gmap string R,
    compute_sqi x self = (Ok d, self) /\
    dom d = ({["saturation"; "flatness"; "snr_like"]} : gset string).
Proof.
  intros Hne. destruct (max_min_nonempty x Hne) as (mx & mn & Hmx & Hmn).
  unfold compute_sqi, bind, lift, ret. rewrite Hmx, Hmn.
  eexists. split; [ reflexivity | ].
  rewrite !dom_insert_L. set_solver.
Qed.

(** C10: on a segment of two or more samples [compute_sqi] returns a
    dictionary whose keys are exactly ["saturation"], ["flatness"] and
    ["snr_like"]; ["saturation"] is the fraction of the samples within
    1% of the range from an extreme, ["flatness"] the fraction of the
    successive differences below [1e-4] in magnitude, and both lie in
    [[0, 1]]. *)
Theorem compute_sqi_spec (x : list R) (self : SyncAnalyzer) :
  (2 <= length x)%nat ->
  exists (d : gmap string R) (mx mn sat flat : R),
    compute_sqi x self = (Ok d, self) /\
    dom d = ({["saturation"; "flatness"; "snr_like"]} : gset string) /\
    Py.max x = Ok mx /\ Py.min x = Ok mn /\
    d !! "saturation" = Some sat /\
    d !! "flatness" = Some flat /\
    sat = INR (length (List.filter
                         (fun xi => Py.gtb xi (mx - 0.01 * (mx - mn + 1e-9))
                                    || Py.ltb xi (mn + 0.01 * (mx - mn + 1e-9)))
                         x)) / INR (length x) /\
    flat = INR (length (List.filter (fun d => Py.ltb (Rabs d) 1e-4) (Py.diff x)))
           / INR (length (Py.diff x)) /\
    0 <= sat <= 1 /\
    0 <= flat <= 1.
Proof.
  intros Hlen.
  assert (Hne : x <> []) by (destruct x; simpl in Hlen; [ lia | discriminate ]).
  destruct (max_min_nonempty x Hne) as (mx & mn & Hmx & Hmn).
  unfold compute_sqi, bind, lift, ret. rewrite Hmx, Hmn.
  eexists. exists mx, mn. eexists. eexists.
  split; [ reflexivity | ].
  split; [ rewrite !dom_insert_L; set_solver | ].
  split; [ reflexivity | ]. split; [ reflexivity | ].
  split; [ rewrite lookup_insert_ne, lookup_insert_ne, lookup_insert_eq by done;
           reflexivity | ].
  split; [ rewrite lookup_insert_ne, lookup_insert_eq by done; reflexivity | ].
  split; [ apply mean_indicator | ].
  split; [ apply mean_indicator | ].
  rewrite !mean_indicator. split.
  - apply fraction_bounds; [ apply filter_shorter | lia ].
  - apply fraction_bounds; [ apply filter_shorter | rewrite length_diff; lia ].
Qed.

Lemma compute_sqi_spec_witness :
  exists d : gmap string R,
    compute_sqi [1; 2; 4] init_default = (Ok d, init_default) /\
    dom d = ({["saturation"; "flatness"; "snr_like"]} : gset string).
Proof.
  destruct (compute_sqi_spec [1; 2; 4] init_default) as (d & _ & _ & _ & _ & H & Hd & _).
  - simpl. lia.
  - exists d. split; [ exact H | exact Hd ].
Defined.

(** ** The metrics never abort the analysis *)

Lemma compute_hr_returns (peak_indices : list Z) (self : SyncAnalyzer) :
  exists hr m sd : option R,
    compute_hr peak_indices self = (Ok (hr, m, sd), self) /\
    ((length peak_indices < 2)%nat -> hr = None /\ m = None /\ sd = None).
Proof.
  unfold compute_hr, bind, get, ret.
  destruct (Nat.ltb_spec (length peak_indices) 2) as [Hlt | Hge].
  - exists None, None, None. auto.
  - eexists. eexists. eexists. split; [ reflexivity | lia ].
Qed.

Lemma map_ptt_returns (r_idx ppg_idx : list Z) (self : SyncAnalyzer) :
  exists ptt_arr : list R,
    map_ptt r_idx ppg_idx self = (Ok ptt_arr, self) /\
    (r_idx = [] \/ ppg_idx = [] -> ptt_arr = []).
Proof.
  unfold map_ptt, bind, get, ret.
  destruct r_idx as [ | r rest].
  - exists []. auto.
  - destruct ppg_idx as [ | p ppg].
    + exists []. auto.
    + eexists. split; [ reflexivity | ].
      intros [H | H]; discriminate.
Qed.

Lemma slice_to_nonempty {A : Type} (l : list A) (stop : Z) :
  l <> [] -> (1 <= stop)%Z -> Py.slice_to l stop <> [].
Proof.
  intros Hne Hstop. destruct l as [ | a t]; [ congruence | ].
  unfold Py.slice_to, Py.slice, Py.adjust.
  destruct (Z.ltb_spec stop 0) as [? | _]; [ lia | ].
  change (0 <? 0)%Z with false. cbv iota.
  rewrite (Z.min_l 0) by lia.
  remember (Z.min stop (Z.of_nat (length (a :: t))) - 0)%Z as m eqn:Em.
  assert (Hm : (1 <= m)%Z) by (cbn [length] in Em; lia).
  destruct (Z.to_nat m) as [ | k] eqn:Ek; [ lia | ].
  simpl. discriminate.
Qed.

Lemma align_signals_nonempty (ppg ecg : list R) (self : SyncAnalyzer) :
  ppg <> [] -> ecg <> [] ->
  exists ppg_cut ecg_cut : list R,
    align_signals ppg ecg self = (Ok (ppg_cut, ecg_cut), self) /\
    ppg_cut <> [] /\ ecg_cut <> [].
Proof.
  intros Hp He. unfold align_signals, ret.
  eexists. eexists. split; [ reflexivity | ].
  assert (H : (1 <= Z.min (Z.of_nat (length ppg)) (Z.of_nat (length ecg)))%Z).
  { destruct ppg; [ congruence | ]. destruct ecg; [ congruence | ].
    cbn [length]. lia. }
  split; apply slice_to_nonempty; assumption.
Qed.

Lemma zscore_returns (x : list R) (self : SyncAnalyzer) :
  exists z : list R, zscore x self = (Ok z, self) /\ length z = length x.
Proof.
  rewrite zscore_unfold. eexists. split; [ reflexivity | ].
  apply length_map.
Qed.

Lemma delay_by_xcorr_returns (x y : list R) (self : SyncAnalyzer) :
  x <> [] -> y <> [] ->
  exists delay_s : R, delay_by_xcorr x y self = (Ok delay_s, self).
Proof.
  intros Hx Hy. unfold delay_by_xcorr.
  destruct (zscore_returns x self) as (x0 & Hx0 & Lx).
  destruct (zscore_returns y self) as (y0 & Hy0 & Ly).
  unfold bind at 1. unfold get.
  rewrite (bind_ok _ _ _ _ _ Hx0), (bind_ok _ _ _ _ _ Hy0).
  destruct x0 as [ | a x0]; [ destruct x; [ congruence | discriminate ] | ].
  destruct y0 as [ | b y0]; [ destruct y; [ congruence | discriminate ] | ].
  unfold bind, lift, ret, Py.correlate_full.
  replace (length (b :: y0) + length (a :: x0) - 1)%nat
    with (S (length y0 + length x0)) by (cbn [length]; lia).
  cbn [seq map Py.argmax]. eexists. reflexivity.
Qed.

Section Analysis.

Variable coeffs : Type.
Variable butter : Z -> R -> R -> result coeffs.
Variable filtfilt : coeffs -> list R -> result (list R).
Variable sp_detrend : list R -> result (list R).
Variable find_peaks : list R -> Z -> R -> result (list Z).

(** Once peak detection has returned, the rest of the analysis returns
    too, whatever the peaks. *)
Lemma measure_returns (rs re : R) (t_roi ecg_f ppg_f : list R)
  (r_idx ppg_pk : list Z) (self : SyncAnalyzer) :
  ecg_f <> [] -> ppg_f <> [] ->
  detect_ecg_rpeaks find_peaks ecg_f self = (Ok r_idx, self) ->
  detect_ppg_peaks find_peaks ppg_f self = (Ok ppg_pk, self) ->
  exists (res : ROIResult) (ptt_arr : list R),
    analyze_roi_measure find_peaks rs re t_roi ecg_f ppg_f self = (Ok res, self) /\
    map_ptt r_idx ppg_pk self = (Ok ptt_arr, self) /\
    ((length r_idx < 2)%nat ->
     hr_bpm res = None /\ rr_mean_s res = None /\ rr_sd_s res = None) /\
    (ptt_mean_s res = None <-> ptt_arr = []) /\
    (ptt_sd_s res = None <-> ptt_arr = []) /\
    (exists delay_s : R, delay_xcorr_s res = Some delay_s) /\
    dom (sqi res) = ({["saturation"; "flatness"; "snr_like"]} : gset string).
Proof.
  intros He Hp Hr Hk.
  destruct (compute_hr_returns r_idx self) as (hr & m & sd & Hhr & Hfew).
  destruct (map_ptt_returns r_idx ppg_pk self) as (ptt_arr & Hptt & _).
  destruct (align_signals_nonempty ppg_f ecg_f self Hp He)
    as (ppg_cut & ecg_cut & Hcut & Hpc & Hec).
  destruct (delay_by_xcorr_returns ecg_cut ppg_cut self Hec Hpc) as (delay_s & Hd).
  destruct (compute_sqi_returns ppg_f self Hp) as (d & Hsqi & Hdom).
  unfold analyze_roi_measure.
  rewrite (bind_ok _ _ _ _ _ Hr), (bind_ok _ _ _ _ _ Hk),
    (bind_ok _ _ _ _ _ Hhr), (bind_ok _ _ _ _ _ Hptt),
    (bind_ok _ _ _ _ _ Hcut), (bind_ok _ _ _ _ _ Hd),
    (bind_ok _ _ _ _ _ Hsqi).
  unfold bind, get, ret.
  eexists. exists ptt_arr. split; [ reflexivity | ].
  cbn [hr_bpm rr_mean_s rr_sd_s ptt_mean_s ptt_sd_s delay_xcorr_s sqi].
  split; [ exact Hptt | ]. split; [ exact Hfew | ].
  repeat split; try (destruct ptt_arr; simpl; congruence); eauto.
Qed.

(** C2: with an ROI configured, once conditioning has handed on
    non-empty segments and peak detection has returned, [analyze_roi]
    returns an [ROIResult] whatever the number of peaks, zero included.
    With fewer than two R-peaks [hr_bpm], [rr_mean_s] and [rr_sd_s] are
    absent; with no R-peak or no PPG peak [ptt_mean_s] and [ptt_sd_s]
    are absent; [delay_xcorr_s] is present and [sqi] has its three keys
    in every case. *)
Theorem analyze_roi_zero_peaks (t ppg ecg : list R) (do_detrend : bool)
  (filt_mode : string) (self : SyncAnalyzer) (rs re : R)
  (t_roi ecg_f ppg_f : list R) (r_idx ppg_pk : list Z) :
  roi_start self = Some rs -> roi_end self = Some re ->
  analyze_roi_condition butter filtfilt sp_detrend
    t ppg ecg do_detrend filt_mode self = (Ok (t_roi, ecg_f, ppg_f), self) ->
  ecg_f <> [] -> ppg_f <> [] ->
  detect_ecg_rpeaks find_peaks ecg_f self = (Ok r_idx, self) ->
  detect_ppg_peaks find_peaks ppg_f self = (Ok ppg_pk, self) ->
  exists res : ROIResult,
    analyze_roi butter filtfilt sp_detrend find_peaks
      t ppg ecg do_detrend filt_mode self = (Ok res, self) /\
    ((length r_idx < 2)%nat ->
     hr_bpm res = None /\ rr_mean_s res = None /\ rr_sd_s res = None) /\
    (r_idx = [] \/ ppg_pk = [] ->
     ptt_mean_s res = None /\ ptt_sd_s res = None) /\
    (exists delay_s : R, delay_xcorr_s res = Some delay_s) /\
    dom (sqi res) = ({["saturation"; "flatness"; "snr_like"]} : gset string).
Proof.
  intros Hs He Hc Hecg Hppg Hr Hk.
  destruct (measure_returns rs re t_roi ecg_f ppg_f r_idx ppg_pk self
              Hecg Hppg Hr Hk)
    as (res & ptt_arr & Hres & Hptt & Hfew & Hmean & Hsd & Hdelay & Hdom).
  exists res. split.
  - unfold analyze_roi. unfold bind at 1. unfold get. rewrite Hs, He.
    rewrite (bind_ok _ _ _ _ _ Hc). exact Hres.
  - split; [ exact Hfew | ]. split; [ | split; assumption ].
    intros Hnone.
    destruct (map_ptt_returns r_idx ppg_pk self) as (arr & Harr & Hempty).
    rewrite Hptt in Harr. injection Harr as <-.
    specialize (Hempty Hnone). split; [ apply Hmean | apply Hsd ]; exact Hempty.
Qed.

(** Whenever [analyze_roi] returns, its PTT fields are the statistics of
    the pairings [map_ptt] kept from the detected peaks, present exactly
    when some pairing was kept. *)
Lemma analyze_roi_ptt (t ppg ecg : list R) (do_detrend : bool)
  (filt_mode : string) (self after : SyncAnalyzer) (res : ROIResult) :
  analyze_roi butter filtfilt sp_detrend find_peaks
    t ppg ecg do_detrend filt_mode self = (Ok res, after) ->
  exists (t_roi ecg_f ppg_f : list R) (r_idx ppg_pk : list Z)
         (ptt_arr : list R),
    analyze_roi_condition butter filtfilt sp_detrend
      t ppg ecg do_detrend filt_mode self = (Ok (t_roi, ecg_f, ppg_f), self) /\
    detect_ecg_rpeaks find_peaks ecg_f self = (Ok r_idx, self) /\
    detect_ppg_peaks find_peaks ppg_f self = (Ok ppg_pk, self) /\
    map_ptt r_idx ppg_pk self = (Ok ptt_arr, self) /\
    ptt_mean_s res =
      (if (0 <? length ptt_arr)%nat then Some (Py.mean ptt_arr) else None) /\
    ptt_sd_s res =
      (if (0 <? length ptt_arr)%nat then Some (Py.std ptt_arr) else None).
Proof.
  unfold analyze_roi. unfold bind at 1. unfold get.
  destruct (roi_start self) as [rs | ]; [ | discriminate ].
  destruct (roi_end self) as [re | ]; [ | discriminate ].
  intros H.
  apply bind_inv in H as ([[t_roi ecg_f] ppg_f] & s & Hc & H).
  pose proof (readonly_run _ _ _ _
                (readonly_condition _ butter filtfilt sp_detrend
                   t ppg ecg do_detrend filt_mode) Hc); subst s.
  unfold analyze_roi_measure in H.
  apply bind_inv in H as (r_idx & s & Hr & H).
  pose proof (readonly_run _ _ _ _
                (readonly_detect_ecg_rpeaks find_peaks ecg_f) Hr); subst s.
  apply bind_inv in H as (ppg_pk & s & Hk & H).
  pose proof (readonly_run _ _ _ _
                (readonly_detect_ppg_peaks find_peaks ppg_f) Hk); subst s.
  apply bind_inv in H as ([[hr m] sd] & s & Hhr & H).
  pose proof (readonly_run _ _ _ _ (readonly_compute_hr r_idx) Hhr); subst s.
  apply bind_inv in H as (ptt_arr & s & Hptt & H).
  pose proof (readonly_run _ _ _ _ (readonly_map_ptt r_idx ppg_pk) Hptt);
    subst s.
  apply bind_inv in H as ([ppg_cut ecg_cut] & s & _ & H).
  apply bind_inv in H as (delay_s & s' & _ & H).
  apply bind_inv in H as (d & s'' & _ & H).
  unfold bind, get, ret in H. injection H as <- _.
  exists t_roi, ecg_f, ppg_f, r_idx, ppg_pk, ptt_arr.
  repeat split; assumption.
Qed.

End Analysis.

Lemma extract_roi_whole {A : Type} (a b c d : A) :
  extract_roi [a; b; c; d] (mkAnalyzer 1 (Some 0) (Some 4)) =
  (Ok [a; b; c; d], mkAnalyzer 1 (Some 0) (Some 4)).
Proof.
  unfold extract_roi, bind, get, ret. cbn [roi_start roi_end sampling_rate].
  replace (0 * 1) with (IZR 0) by lra.
  replace (4 * 1) with (IZR 4) by lra.
  rewrite !int_IZR. reflexivity.
Qed.

Lemma analyze_roi_zero_peaks_witness :
  exists res : ROIResult,
    analyze_roi (fun _ _ _ => Ok tt) (fun _ x => Ok x) (fun x => Ok x)
      (fun _ _ _ => Ok [])
      [0; 1; 2; 3] [5; 7; 6; 8] [1; 9; 1; 9] false "off"
      (mkAnalyzer 1 (Some 0) (Some 4)) =
    (Ok res, mkAnalyzer 1 (Some 0) (Some 4)) /\
    hr_bpm res = None /\ ptt_mean_s res = None /\
    (exists delay_s : R, delay_xcorr_s res = Some delay_s).
Proof.
  destruct (analyze_roi_zero_peaks unit (fun _ _ _ => Ok tt) (fun _ x => Ok x)
              (fun x => Ok x) (fun _ _ _ => Ok [])
              [0; 1; 2; 3] [5; 7; 6; 8] [1; 9; 1; 9] false "off"
              (mkAnalyzer 1 (Some 0) (Some 4)) 0 4
              [0; 1; 2; 3] [1; 9; 1; 9] [5; 7; 6; 8] [] [])
    as (res & Hres & Hhr & Hptt & Hdelay & _).
  - reflexivity.
  - reflexivity.
  - unfold analyze_roi_condition.
    rewrite !(bind_ok _ _ _ _ _ (extract_roi_whole _ _ _ _)). reflexivity.
  - discriminate.
  - discriminate.
  - reflexivity.
  - reflexivity.
  - exists res. split; [ exact Hres | ].
    split; [ apply Hhr; simpl; lia | ].
    split; [ apply Hptt; left; reflexivity | exact Hdelay ].
Defined.

(** ** The PTT window and the examples of the specification *)

Lemma accept_inside (rate : R) (r p : Z) :
  0 < IZR (p - r) / rate < 1.5 ->
  Spec.accept rate r p = [IZR (p - r) / rate].
Proof.
  intros [H0 H1]. unfold Spec.accept.
  destruct (Rlt_dec 0 (IZR (p - r) / rate)) as [_ | Hn]; [ | contradiction ].
  destruct (Rlt_dec (IZR (p - r) / rate) 1.5) as [_ | Hn]; [ | contradiction ].
  reflexivity.
Qed.

Lemma accept_outside (rate : R) (r p : Z) :
  ~ 0 < IZR (p - r) / rate < 1.5 -> Spec.accept rate r p = [].
Proof.
  intros H. unfold Spec.accept.
  destruct (Rlt_dec 0 (IZR (p - r) / rate)) as [H0 | _]; [ | reflexivity ].
  destruct (Rlt_dec (IZR (p - r) / rate) 1.5) as [H1 | _]; [ | reflexivity ].
  tauto.
Qed.

Lemma ascending_one (a : Z) : Spec.ascending [a].
Proof. repeat constructor. Defined.

Lemma ascending_two (a b : Z) : (a <= b)%Z -> Spec.ascending [a; b].
Proof. intros H. repeat constructor. exact H. Defined.

Lemma map_ptt_accepts_0_3 :
  map_ptt [100]%Z [130]%Z (init 100) = (Ok [0.3], init 100).
Proof.
  rewrite map_ptt_sweep by apply ascending_one.
  cbn. rewrite accept_inside by (change (130 - 100)%Z with 30%Z; lra).
  do 2 f_equal. change (130 - 100)%Z with 30%Z. list_eq.
Qed.

Lemma map_ptt_rejects_1_5 :
  map_ptt [100]%Z [250]%Z (init 100) = (Ok [], init 100).
Proof.
  rewrite map_ptt_sweep by apply ascending_one.
  cbn. rewrite accept_outside by (change (250 - 100)%Z with 150%Z; lra).
  reflexivity.
Qed.

(** C1, as the code has it: on ascending peak sequences [map_ptt] pairs
    each R-peak [r] with the first PPG peak at or after [r] (not strictly
    after it) and keeps the pairing exactly when
    [0 < (ppg_idx - r) / fs < 1.5]; whenever [analyze_roi] returns, the
    PTT mean and SD are absent exactly when no pairing was kept.  With
    R-peaks [[100]] at 100 Hz, the PPG peaks [[130]] give the one transit
    time [0.3] and the PPG peaks [[250]] give none. *)
Theorem map_ptt_spec :
  (forall (r_idx ppg_idx : list Z) (self : SyncAnalyzer),
      Spec.ascending r_idx -> Spec.ascending ppg_idx ->
      map_ptt r_idx ppg_idx self =
      (Ok (Spec.map_ptt_with Spec.first_at_or_after (sampling_rate self)
             r_idx ppg_idx), self)) /\
  (forall (coeffs : Type) (butter : Z -> R -> R -> result coeffs)
          (filtfilt : coeffs -> list R -> result (list R))
          (sp_detrend : list R -> result (list R))
          (find_peaks : list R -> Z -> R -> result (list Z))
          (t ppg ecg : list R) (do_detrend : bool) (filt_mode : string)
          (self after : SyncAnalyzer) (res : ROIResult),
      analyze_roi butter filtfilt sp_detrend find_peaks
        t ppg ecg do_detrend filt_mode self = (Ok res, after) ->
      exists (t_roi ecg_f ppg_f : list R) (r_idx ppg_pk : list Z)
             (ptt_arr : list R),
        analyze_roi_condition butter filtfilt sp_detrend
          t ppg ecg do_detrend filt_mode self =
        (Ok (t_roi, ecg_f, ppg_f), self) /\
        detect_ecg_rpeaks find_peaks ecg_f self = (Ok r_idx, self) /\
        detect_ppg_peaks find_peaks ppg_f self = (Ok ppg_pk, self) /\
        map_ptt r_idx ppg_pk self = (Ok ptt_arr, self) /\
        (ptt_mean_s res = None <-> ptt_arr = []) /\
        (ptt_sd_s res = None <-> ptt_arr = [])) /\
  map_ptt [100]%Z [130]%Z (init 100) = (Ok [0.3], init 100) /\
  map_ptt [100]%Z [250]%Z (init 100) = (Ok [], init 100).
Proof.
  split; [ | split; [ | split ] ].
  - intros r_idx ppg_idx self Hr _. apply map_ptt_sweep. exact Hr.
  - intros coeffs butter filtfilt sp_detrend find_peaks t ppg ecg do_detrend
      filt_mode self after res H.
    destruct (analyze_roi_ptt _ _ _ _ _ _ _ _ _ _ _ _ _ H)
      as (t_roi & ecg_f & ppg_f & r_idx & ppg_pk & ptt_arr
          & Hc & Hr & Hk & Hptt & Hmean & Hsd).
    exists t_roi, ecg_f, ppg_f, r_idx, ppg_pk, ptt_arr.
    repeat split; try assumption;
      rewrite ?Hmean, ?Hsd; destruct ptt_arr; simpl; congruence.
  - exact map_ptt_accepts_0_3.
  - exact map_ptt_rejects_1_5.
Qed.

Lemma map_ptt_spec_witness :
  map_ptt [100; 900]%Z [130; 950]%Z (init 100) =
  (Ok (Spec.map_ptt_with Spec.first_at_or_after 100
         [100; 900]%Z [130; 950]%Z), init 100).
Proof.
  apply (proj1 map_ptt_spec [100; 900]%Z [130; 950]%Z (init 100)).
  - apply ascending_two. lia.
  - apply ascending_two. lia.
Defined.

(** C1, counterexample: R-peaks [[100]] and PPG peaks [[100, 130]] at
    100 Hz, both ascending.  The first PPG peak strictly after [100] is
    [130], a transit time of [0.3] inside the window; the code stops its
    cursor on the PPG peak [100], finds a transit time of [0] and drops
    the beat. *)
Lemma map_ptt_coincident_peak :
  Spec.ascending [100]%Z /\ Spec.ascending [100; 130]%Z /\
  Spec.map_ptt 100 [100]%Z [100; 130]%Z = [0.3] /\
  map_ptt [100]%Z [100; 130]%Z (init 100) = (Ok [], init 100).
Proof.
  split; [ apply ascending_one | ].
  split; [ apply ascending_two; lia | ].
  split.
  - unfold Spec.map_ptt. cbn.
    rewrite accept_inside by (change (130 - 100)%Z with 30%Z; lra).
    change (130 - 100)%Z with 30%Z. list_eq.
  - rewrite map_ptt_sweep by apply ascending_one.
    cbn. rewrite accept_outside by (change (100 - 100)%Z with 0%Z; lra).
    reflexivity.
Qed.

(** * Further properties of the engine *)

(** ** Alignment and ROI segments *)

Lemma slice_to_prefix {A : Type} (l : list A) (stop : Z) :
  (0 <= stop <= Z.of_nat (length l))%Z ->
  Py.slice_to l stop = firstn (Z.to_nat stop) l.
Proof.
  intros H. unfold Py.slice_to. rewrite slice_in_range by lia.
  unfold Spec.samples_between. rewrite Z.sub_0_r. reflexivity.
Qed.

Lemma align_signals_run (ppg ecg : list R) (self : SyncAnalyzer) :
  align_signals ppg ecg self =
  (Ok (firstn (Nat.min (length ppg) (length ecg)) ppg,
       firstn (Nat.min (length ppg) (length ecg)) ecg), self).
Proof.
  unfold align_signals, ret.
  rewrite !slice_to_prefix by lia.
  replace (Z.to_nat (Z.min (Z.of_nat (length ppg)) (Z.of_nat (length ecg))))
    with (Nat.min (length ppg) (length ecg)) by lia.
  reflexivity.
Qed.

(** [align_signals] cuts both arrays to the length of the shorter one,
    keeping the leading samples, and never raises. *)
Theorem align_signals_prefixes (ppg ecg : list R) (self : SyncAnalyzer) :
  let n := Nat.min (length ppg) (length ecg) in
  align_signals ppg ecg self = (Ok (firstn n ppg, firstn n ecg), self) /\
  length (firstn n ppg) = n /\ length (firstn n ecg) = n.
Proof.
  cbv zeta. split; [ apply align_signals_run | ].
  rewrite !length_firstn. lia.
Qed.

(** Once both bounds are set [extract_roi] never raises, whatever the
    bounds and the rate: it returns a contiguous run of the signal, at a
    position that depends only on the configuration and on the length of
    the signal, so that arrays of equal length are cut at the same
    indices. *)
Theorem extract_roi_aligned {A B : Type} (x : list A) (y : list B)
  (self : SyncAnalyzer) (rs re : R) :
  roi_start self = Some rs -> roi_end self = Some re ->
  length x = length y ->
  exists s k : nat,
    extract_roi x self = (Ok (firstn k (skipn s x)), self) /\
    extract_roi y self = (Ok (firstn k (skipn s y)), self) /\
    x = firstn s x ++ firstn k (skipn s x) ++ skipn k (skipn s x).
Proof.
  intros Hs He Hlen.
  unfold extract_roi, bind, get, ret. rewrite Hs, He.
  unfold Py.slice. rewrite Hlen.
  eexists. eexists. split; [ reflexivity | ]. split; [ reflexivity | ].
  rewrite firstn_skipn, firstn_skipn. reflexivity.
Qed.

Lemma extract_roi_aligned_witness :
  exists s k : nat,
    extract_roi [10; 20; 30; 40]%Z (mkAnalyzer 1 (Some 0) (Some 4)) =
    (Ok (firstn k (skipn s [10; 20; 30; 40]%Z)),
     mkAnalyzer 1 (Some 0) (Some 4)) /\
    extract_roi [true; false; true; true] (mkAnalyzer 1 (Some 0) (Some 4)) =
    (Ok (firstn k (skipn s [true; false; true; true])),
     mkAnalyzer 1 (Some 0) (Some 4)).
Proof.
  destruct (extract_roi_aligned [10; 20; 30; 40]%Z [true; false; true; true]
              (mkAnalyzer 1 (Some 0) (Some 4)) 0 4)
    as (s & k & H1 & H2 & _); try reflexivity.
  exists s, k. split; assumption.
Defined.

(** ** Transit times stay inside the window *)

Lemma accept_window (rate : R) (r p : Z) :
  Forall (fun v => 0 < v < 1.5) (Spec.accept rate r p) /\
  (length (Spec.accept rate r p) <= 1)%nat.
Proof.
  unfold Spec.accept.
  destruct (Rlt_dec 0 (IZR (p - r) / rate)) as [H0 | _];
    [ destruct (Rlt_dec (IZR (p - r) / rate) 1.5) as [H1 | _] | ];
    split; simpl; try lia; try apply Forall_nil_2.
  apply Forall_cons_2; [ split; assumption | apply Forall_nil_2 ].
Qed.

Lemma ptt_loop_window (rate : R) (ppg_idx : list Z) (r_idx : list Z) :
  forall (j : nat) (ptts : list R),
    Forall (fun v => 0 < v < 1.5) ptts ->
    Forall (fun v => 0 < v < 1.5)
      (snd (fold_left (ptt_step rate ppg_idx) r_idx (j, ptts))) /\
    (length (snd (fold_left (ptt_step rate ppg_idx) r_idx (j, ptts)))
     <= length ptts + length r_idx)%nat.
Proof.
  induction r_idx as [ | r rest IH]; intros j ptts Hin.
  - simpl. split; [ exact Hin | lia ].
  - cbn [fold_left]. rewrite ptt_step_spec.
    set (j' := advance (length ppg_idx) ppg_idx r j).
    set (new := match ppg_idx !! j' with
                | Some p => Spec.accept rate r p
                | None => []
                end).
    assert (Hnew : Forall (fun v => 0 < v < 1.5) new /\ (length new <= 1)%nat).
    { unfold new. destruct (ppg_idx !! j') as [p | ].
      - apply accept_window.
      - split; [ apply Forall_nil_2 | simpl; lia ]. }
    destruct Hnew as [Hn1 Hn2].
    destruct (IH j' (ptts ++ new)) as [H1 H2].
    { apply Forall_app_2; assumption. }
    split; [ exact H1 | ].
    rewrite length_app in H2. cbn [length]. lia.
Qed.

(** Whatever the two index arrays, sorted or not, [map_ptt] returns
    without raising, keeps at most one transit time per R-peak, and every
    transit time it returns lies strictly between [0] and [1.5]
    seconds. *)
Theorem map_ptt_window (r_idx ppg_idx : list Z) (self : SyncAnalyzer) :
  exists ptt_arr : list R,
    map_ptt r_idx ppg_idx self = (Ok ptt_arr, self) /\
    (length ptt_arr <= length r_idx)%nat /\
    Forall (fun v => 0 < v < 1.5) ptt_arr.
Proof.
  unfold map_ptt, bind, get, ret.
  destruct ((length r_idx =? 0)%nat || (length ppg_idx =? 0)%nat).
  - exists []. split; [ reflexivity | ]. split; [ simpl; lia | apply Forall_nil_2 ].
  - eexists. split; [ reflexivity | ].
    destruct (ptt_loop_window (sampling_rate self) ppg_idx r_idx O [])
      as [H1 H2]; [ apply Forall_nil_2 | ].
    split; [ simpl in H2; lia | exact H1 ].
Qed.

(** ** Heart rate from the first and the last peak *)

Lemma sum_map_div (f : Z -> R) (c : R) (l : list Z) :
  Py.sum (map (fun d => f d / c) l) = Py.sum (map f l) / c.
Proof.
  unfold Py.sum. induction l as [ | a l IH]; simpl; [ lra | ].
  rewrite IH. lra.
Qed.

Lemma sum_diffZ (l : list Z) :
  l <> [] ->
  Py.sum (map IZR (Py.diffZ l)) = IZR (List.last l 0%Z - hd 0%Z l).
Proof.
  induction l as [ | a [ | b t] IH]; intros Hne.
  - congruence.
  - simpl. unfold Py.sum. simpl. rewrite Z.sub_diag. reflexivity.
  - change (Py.diffZ (a :: b :: t)) with ((b - a)%Z :: Py.diffZ (b :: t)).
    change (List.last (a :: b :: t) 0%Z) with (List.last (b :: t) 0%Z).
    unfold Py.sum in *. cbn [map fold_right hd].
    rewrite IH by discriminate. cbn [hd].
    rewrite !minus_IZR. lra.
Qed.

Lemma length_diffZ (l : list Z) : length (Py.diffZ l) = (length l - 1)%nat.
Proof.
  induction l as [ | a [ | b t] IH]; try reflexivity.
  change (Py.diffZ (a :: b :: t)) with ((b - a)%Z :: Py.diffZ (b :: t)).
  cbn [length] in *. rewrite IH. lia.
Qed.

Lemma mean_rr (rate : R) (peaks : list Z) :
  peaks <> [] ->
  Py.mean (map (fun d => IZR d / rate) (Py.diffZ peaks)) =
  IZR (List.last peaks 0%Z - hd 0%Z peaks) / rate / INR (length peaks - 1).
Proof.
  intros Hne. unfold Py.mean.
  rewrite sum_map_div, sum_diffZ, length_map, length_diffZ by exact Hne.
  reflexivity.
Qed.

(** With two or more peaks and a positive rate, the mean RR interval is
    the span from the first to the last peak over the number of
    intervals, [(last - first) / fs / (n - 1)]: the peaks in between do
    not matter.  The heart rate is reported exactly when the last peak
    index is greater than the first. *)
Theorem compute_hr_span (peak_indices : list Z) (self : SyncAnalyzer) :
  (2 <= length peak_indices)%nat ->
  0 < sampling_rate self ->
  let first := hd 0%Z peak_indices in
  let last := List.last peak_indices 0%Z in
  let m := IZR (last - first) / sampling_rate self
           / INR (length peak_indices - 1) in
  exists (hr sd : option R),
    compute_hr peak_indices self = (Ok (hr, Some m, sd), self) /\
    ((first < last)%Z -> hr = Some (60 / m) /\ 0 < m) /\
    ((last <= first)%Z -> hr = None).
Proof.
  intros Hlen Hfs first last m.
  assert (Hne : peak_indices <> [])
    by (destruct peak_indices; simpl in Hlen; [ lia | discriminate ]).
  assert (Hn : 0 < INR (length peak_indices - 1)) by (apply lt_0_INR; lia).
  unfold compute_hr, bind, get, ret.
  destruct (Nat.ltb_spec (length peak_indices) 2) as [? | _]; [ lia | ].
  rewrite mean_rr by exact Hne. fold first last m.
  eexists. eexists. split; [ reflexivity | ].
  assert (Hsign : (first < last)%Z -> 0 < m).
  { intros Hlt. unfold m.
    assert (0 < IZR (last - first)) by (apply IZR_lt; lia).
    apply Rdiv_lt_0_compat; [ apply Rdiv_lt_0_compat | ]; assumption. }
  assert (Hneg : (last <= first)%Z -> m <= 0).
  { intros Hle. unfold m.
    assert (H0 : IZR (last - first) <= 0) by (apply IZR_le; lia).
    assert (Hi : 0 < / sampling_rate self) by (apply Rinv_0_lt_compat; exact Hfs).
    assert (Hj : 0 < / INR (length peak_indices - 1))
      by (apply Rinv_0_lt_compat; exact Hn).
    unfold Rdiv.
    assert (IZR (last - first) * / sampling_rate self <= 0) by nra.
    nra. }
  split.
  - intros Hlt. specialize (Hsign Hlt).
    destruct (Rlt_dec 0 m) as [_ | Hc]; [ | contradiction ].
    split; [ | exact Hsign ]. f_equal. lra.
  - intros Hle. specialize (Hneg Hle).
    destruct (Rlt_dec 0 m) as [Hc | _]; [ lra | reflexivity ].
Qed.

Lemma compute_hr_span_witness :
  exists (hr sd : option R),
    compute_hr [10; 50; 200; 266]%Z (init 128) =
    (Ok (hr, Some (IZR (266 - 10) / 128 / INR 3), sd), init 128).
Proof.
  destruct (compute_hr_span [10; 50; 200; 266]%Z (init 128))
    as (hr & sd & H & _).
  - simpl. lia.
  - simpl. lra.
  - exists hr, sd. exact H.
Defined.

(** ** A regular rhythm *)

Lemma diffZ_evenly_spaced (d : Z) (n : nat) :
  forall a : Z, Py.diffZ (Spec.evenly_spaced a d n) = repeat d (n - 1).
Proof.
  induction n as [ | [ | k] IH]; intros a; try reflexivity.
  change (Spec.evenly_spaced a d (S (S k)))
    with (a :: (a + d)%Z :: Spec.evenly_spaced (a + d + d) d k).
  change (Py.diffZ (a :: (a + d)%Z :: Spec.evenly_spaced (a + d + d) d k))
    with ((a + d - a)%Z :: Py.diffZ (Spec.evenly_spaced (a + d) d (S k))).
  rewrite IH. replace (a + d - a)%Z with d by lia.
  replace (S (S k) - 1)%nat with (S k) by lia.
  replace (S k - 1)%nat with k by lia. reflexivity.
Qed.

Lemma length_evenly_spaced (d : Z) (n : nat) :
  forall a : Z, length (Spec.evenly_spaced a d n) = n.
Proof.
  induction n as [ | n IH]; intros a; simpl; [ reflexivity | ].
  rewrite IH. reflexivity.
Qed.

Lemma map_repeat_Z (f : Z -> R) (d : Z) (n : nat) :
  map f (repeat d n) = repeat (f d) n.
Proof.
  induction n as [ | n IH]; simpl; [ reflexivity | ]. rewrite IH. reflexivity.
Qed.

(** Peaks that are evenly spaced, [d > 0] samples apart, at a positive
    rate: the mean RR interval is [d / fs], its standard deviation is
    [0], and the heart rate is [60 * fs / d] beats per minute, whatever
    the number of peaks (two or more) and the index of the first one. *)
Theorem compute_hr_regular (a d : Z) (n : nat) (self : SyncAnalyzer) :
  (2 <= n)%nat -> (0 < d)%Z -> 0 < sampling_rate self ->
  compute_hr (Spec.evenly_spaced a d n) self =
  (Ok (Some (60 * sampling_rate self / IZR d),
       Some (IZR d / sampling_rate self), Some 0), self).
Proof.
  intros Hn Hd Hfs.
  assert (Hd' : 0 < IZR d) by (apply IZR_lt; exact Hd).
  unfold compute_hr, bind, get, ret.
  rewrite length_evenly_spaced.
  destruct (Nat.ltb_spec n 2) as [? | _]; [ lia | ].
  rewrite diffZ_evenly_spaced, map_repeat_Z.
  rewrite mean_repeat, std_repeat by lia.
  assert (Hm : 0 < IZR d / sampling_rate self)
    by (apply Rdiv_lt_0_compat; assumption).
  destruct (Rlt_dec 0 (IZR d / sampling_rate self)) as [_ | Hc];
    [ | contradiction ].
  replace 60.0 with 60 by lra.
  replace (60 / (IZR d / sampling_rate self))
    with (60 * sampling_rate self / IZR d) by (field; split; lra).
  reflexivity.
Qed.

Lemma compute_hr_regular_witness :
  compute_hr (Spec.evenly_spaced 7 100 5) (init 125) =
  (Ok (Some (60 * 125 / IZR 100), Some (IZR 100 / 125), Some 0), init 125).
Proof.
  apply (compute_hr_regular 7 100 5 (init 125)).
  - lia.
  - lia.
  - simpl. lra.
Defined.

(** ** What normalisation achieves *)

Lemma sum_map_scale {A : Type} (g : A -> R) (c : R) (l : list A) :
  Py.sum (map (fun x => g x * c) l) = Py.sum (map g l) * c.
Proof.
  unfold Py.sum. induction l as [ | a l IH]; simpl; [ lra | ].
  rewrite IH. lra.
Qed.

Lemma sum_map_shift (m : R) (l : list R) :
  Py.sum (map (fun x => x - m) l) = Py.sum l - INR (length l) * m.
Proof.
  unfold Py.sum. induction l as [ | a l IH].
  - simpl. lra.
  - cbn [map fold_right length]. rewrite IH, S_INR. lra.
Qed.

Lemma sum_centred (l : list R) :
  l <> [] -> Py.sum (map (fun x => x - Py.mean l) l) = 0.
Proof.
  intros Hne. rewrite sum_map_shift. unfold Py.mean.
  pose proof (INR_length_pos l Hne) as Hn. field. lra.
Qed.

(** The mean of the centred samples over any divisor is [0]. *)
Lemma mean_scaled_centred (l : list R) (s : R) :
  l <> [] -> Py.mean (map (fun x => (x - Py.mean l) / s) l) = 0.
Proof.
  intros Hne. unfold Py.mean at 1. unfold Rdiv at 2.
  rewrite (sum_map_scale (fun x => x - Py.mean l) (/ s) l).
  rewrite sum_centred by exact Hne. unfold Rdiv. ring.
Qed.

Lemma var_scaled_centred (l : list R) (s : R) :
  l <> [] -> s <> 0 ->
  Py.var (map (fun x => (x - Py.mean l) / s) l) = Py.var l / (s * s).
Proof.
  intros Hne Hs. unfold Py.var at 1.
  rewrite mean_scaled_centred by exact Hne.
  rewrite map_map. unfold Py.var.
  set (m := Py.mean l). unfold Py.mean. rewrite !length_map.
  rewrite (map_ext _ (fun x => (x - m) * (x - m) * (/ s * / s)))
    by (intros x; cbv beta; unfold Rdiv; ring).
  rewrite (sum_map_scale (fun x => (x - m) * (x - m))).
  pose proof (INR_length_pos l Hne) as Hn. field. split; lra.
Qed.

(** On a non-empty segment the output of [zscore] has the length of its
    input and mean [0]; when the deviation of the input exceeds
    [1e-12], the output has standard deviation [1]. *)
Theorem zscore_normalises (x : list R) (self : SyncAnalyzer) :
  x <> [] ->
  exists z : list R,
    zscore x self = (Ok z, self) /\
    length z = length x /\
    Py.mean z = 0 /\
    (1e-12 < Py.std x -> Py.std z = 1).
Proof.
  intros Hne. rewrite zscore_unfold. eexists. split; [ reflexivity | ].
  split; [ apply length_map | ]. split.
  - apply mean_scaled_centred. exact Hne.
  - intros Hs. destruct (Rlt_dec 1e-12 (Py.std x)) as [_ | Hc]; [ | contradiction ].
    unfold Py.std at 1. rewrite var_scaled_centred by (exact Hne || lra).
    destruct (std_spec x) as [_ Hsq]. fold (Py.var x) in Hsq.
    rewrite <- Hsq.
    replace (Py.std x * Py.std x / (Py.std x * Py.std x)) with 1
      by (field; lra).
    apply sqrt_1.
Qed.

Lemma zscore_normalises_witness :
  exists z : list R,
    zscore [1; 2; 4] init_default = (Ok z, init_default) /\ Py.mean z = 0.
Proof.
  destruct (zscore_normalises [1; 2; 4] init_default) as (z & H & _ & Hm & _).
  - discriminate.
  - exists z. split; assumption.
Defined.

(** ** The cross-correlation delay *)

Lemma argmax_from_bound (l : list R) :
  forall (best : R) (besti i : nat),
    (besti < i)%nat ->
    (Py.argmax_from best besti i l < i + length l)%nat.
Proof.
  induction l as [ | x t IH]; intros best besti i Hi; simpl.
  - lia.
  - destruct (Rlt_dec best x).
    + specialize (IH x i (S i)). lia.
    + specialize (IH best besti (S i)). lia.
Qed.


(** How [delay_by_xcorr] runs on two non-empty segments. *)
Lemma delay_by_xcorr_run (x y : list R) (self : SyncAnalyzer) :
  x <> [] -> y <> [] ->
  exists (x0 y0 corr : list R) (am : Z),
    zscore x self = (Ok x0, self) /\
    zscore y self = (Ok y0, self) /\
    Py.correlate_full y0 x0 = Ok corr /\
    length corr = (length y + length x - 1)%nat /\
    Py.argmax corr = Ok am /\
    delay_by_xcorr x y self =
    (Ok (IZR (am - (Z.of_nat (length x) - 1)) / sampling_rate self), self).
Proof.
  intros Hx Hy.
  destruct (zscore_returns x self) as (x0 & Hx0 & Lx).
  destruct (zscore_returns y self) as (y0 & Hy0 & Ly).
  destruct x0 as [ | a x0]; [ destruct x; [ congruence | discriminate ] | ].
  destruct y0 as [ | b y0]; [ destruct y; [ congruence | discriminate ] | ].
  destruct (Py.correlate_full (b :: y0) (a :: x0)) as [corr | e] eqn:Hc;
    [ | discriminate ].
  assert (Hlen : length corr = (length y + length x - 1)%nat).
  { unfold Py.correlate_full in Hc. injection Hc as <-.
    rewrite length_map, length_seq. cbn [length] in *. lia. }
  destruct corr as [ | c corr].
  { destruct x; [ congruence | ]. destruct y; [ congruence | ].
    simpl in Hlen. lia. }
  exists (a :: x0), (b :: y0), (c :: corr), (Z.of_nat (Py.argmax_from c 0 1 corr)).
  repeat split; try assumption.
  unfold delay_by_xcorr. unfold bind at 1. unfold get.
  rewrite (bind_ok _ _ _ _ _ Hx0), (bind_ok _ _ _ _ _ Hy0).
  unfold bind, lift, ret. rewrite Hc. cbn [Py.argmax]. rewrite Lx. reflexivity.
Qed.

(** On non-empty segments the delay is a whole number of samples [lag]
    over the rate, with [-(len(x) - 1) <= lag <= len(y) - 1]: the lag
    never leaves the range of offsets at which the segments overlap. *)
Theorem delay_by_xcorr_range (x y : list R) (self : SyncAnalyzer) :
  x <> [] -> y <> [] ->
  exists lag : Z,
    delay_by_xcorr x y self = (Ok (IZR lag / sampling_rate self), self) /\
    (- (Z.of_nat (length x) - 1) <= lag <= Z.of_nat (length y) - 1)%Z.
Proof.
  intros Hx Hy.
  destruct (delay_by_xcorr_run x y self Hx Hy)
    as (x0 & y0 & corr & am & _ & _ & _ & Hlen & Ham & Hrun).
  exists (am - (Z.of_nat (length x) - 1))%Z. split; [ exact Hrun | ].
  destruct corr as [ | c corr]; [ discriminate | ].
  cbn [Py.argmax] in Ham. injection Ham as <-.
  pose proof (argmax_from_bound corr c 0 1)%nat as Hb.
  cbn [length] in Hlen.
  assert (0 < length x)%nat by (destruct x; simpl; [ congruence | lia ]).
  lia.
Qed.

Lemma delay_by_xcorr_range_witness :
  exists lag : Z,
    delay_by_xcorr [1; 5; 2] [3; 1; 4; 1] init_default =
    (Ok (IZR lag / 128.0), init_default) /\
    (- 2 <= lag <= 3)%Z.
Proof.
  destruct (delay_by_xcorr_range [1; 5; 2] [3; 1; 4; 1] init_default)
    as (lag & H & Hr); try discriminate.
  exists lag. split; [ exact H | simpl in Hr; lia ].
Defined.






(** ** Signal quality of a flat segment *)






(** ** An ROI that starts after the end of the signal *)

Lemma int_at_least (x : R) (n : Z) :
  (0 <= n)%Z -> IZR n <= x -> (n <= Py.int x)%Z.
Proof.
  intros Hn Hx.
  assert (H0 : 0 <= x) by (apply IZR_le in Hn; lra).
  destruct (int_nonneg x H0) as [-> _].
  destruct (base_Int_part x) as [_ Hlo].
  assert (H : IZR n - 1 < IZR (Int_part x)) by lra.
  rewrite <- minus_IZR in H. apply lt_IZR in H. lia.
Qed.

Lemma extract_roi_past_end {A : Type} (signal : list A) (self : SyncAnalyzer)
  (rs re : R) :
  roi_start self = Some rs -> roi_end self = Some re ->
  IZR (Z.of_nat (length signal)) <= rs * sampling_rate self ->
  extract_roi signal self = (Ok [], self).
Proof.
  intros Hs He Hpast.
  unfold extract_roi, bind, get, ret. rewrite Hs, He.
  pose proof (int_at_least _ _ (Zle_0_nat _) Hpast) as Hint.
  unfold Py.slice, Py.adjust.
  destruct (Z.ltb_spec (Z.max 0 (Py.int (rs * sampling_rate self))) 0)
    as [? | _]; [ lia | ].
  rewrite (Z.min_r (Z.max 0 (Py.int (rs * sampling_rate self)))) by lia.
  rewrite skipn_all2 by lia. rewrite firstn_nil. reflexivity.
Qed.

Lemma extract_roi_returns {A : Type} (signal : list A) (self : SyncAnalyzer)
  (rs re : R) :
  roi_start self = Some rs -> roi_end self = Some re ->
  exists seg : list A, extract_roi signal self = (Ok seg, self).
Proof.
  intros Hs He. unfold extract_roi, bind, get, ret. rewrite Hs, He.
  eexists. reflexivity.
Qed.

Lemma delay_by_xcorr_empty (x y : list R) (self : SyncAnalyzer) :
  x = [] \/ y = [] ->
  delay_by_xcorr x y self = (Raise LibraryError, self).
Proof.
  intros H. unfold delay_by_xcorr, bind, get, zscore, ret, lift.
  destruct H as [-> | ->].
  - destruct y; reflexivity.
  - reflexivity.
Qed.

Section PastEnd.

Variable coeffs : Type.
Variable butter : Z -> R -> R -> result coeffs.
Variable filtfilt : coeffs -> list R -> result (list R).
Variable sp_detrend : list R -> result (list R).
Variable find_peaks : list R -> Z -> R -> result (list Z).

(** Conditioning with detrending off and a mode that filters nothing
    hands on the three ROI segments as they are. *)
Lemma condition_unfiltered (t ppg ecg t_roi ppg_roi ecg_roi : list R)
  (filt_mode : string) (self : SyncAnalyzer) :
  extract_roi ppg self = (Ok ppg_roi, self) ->
  extract_roi ecg self = (Ok ecg_roi, self) ->
  extract_roi t self = (Ok t_roi, self) ->
  filt_mode <> "default" -> filt_mode <> "ppg_ecg" -> filt_mode <> "ppg_only" ->
  analyze_roi_condition butter filtfilt sp_detrend
    t ppg ecg false filt_mode self = (Ok (t_roi, ecg_roi, ppg_roi), self).
Proof.
  intros Hp Hc Ht Hm1 Hm2 Hm3.
  unfold analyze_roi_condition.
  rewrite (bind_ok _ _ _ _ _ Hp), (bind_ok _ _ _ _ _ Hc), (bind_ok _ _ _ _ _ Ht).
  apply String.eqb_neq in Hm1, Hm2, Hm3. rewrite Hm1, Hm2, Hm3.
  cbn [orb]. destruct (String.eqb filt_mode "off"); reflexivity.
Qed.

(** With detrending off and no filtering, an ROI that starts at or after
    the end of the PPG or of the ECG array makes [analyze_roi] raise
    instead of returning a result with absent fields: the segment is
    empty, and either peak detection raises or the cross-correlation of
    an empty array does.  The instance is unchanged. *)
Theorem analyze_roi_past_end (t ppg ecg : list R) (filt_mode : string)
  (self : SyncAnalyzer) (rs re : R) :
  roi_start self = Some rs -> roi_end self = Some re ->
  filt_mode <> "default" -> filt_mode <> "ppg_ecg" -> filt_mode <> "ppg_only" ->
  (IZR (Z.of_nat (length ppg)) <= rs * sampling_rate self \/
   IZR (Z.of_nat (length ecg)) <= rs * sampling_rate self) ->
  exists e : exn,
    analyze_roi butter filtfilt sp_detrend find_peaks
      t ppg ecg false filt_mode self = (Raise e, self).
Proof.
  intros Hs He Hm1 Hm2 Hm3 Hpast.
  destruct (extract_roi_returns ppg self rs re Hs He) as (ppg_roi & Hp).
  destruct (extract_roi_returns ecg self rs re Hs He) as (ecg_roi & Hc).
  destruct (extract_roi_returns t self rs re Hs He) as (t_roi & Ht).
  assert (Hempty : ppg_roi = [] \/ ecg_roi = []).
  { destruct Hpast as [H | H].
    - left. rewrite (extract_roi_past_end ppg self rs re Hs He H) in Hp.
      injection Hp as <-. reflexivity.
    - right. rewrite (extract_roi_past_end ecg self rs re Hs He H) in Hc.
      injection Hc as <-. reflexivity. }
  unfold analyze_roi. unfold bind at 1. unfold get. rewrite Hs, He.
  rewrite (bind_ok _ _ _ _ _
             (condition_unfiltered _ _ _ _ _ _ _ _ Hp Hc Ht Hm1 Hm2 Hm3)).
  unfold analyze_roi_measure.
  destruct (detect_ecg_rpeaks find_peaks ecg_roi self) as [[r_idx | e] s] eqn:Hr.
  2:{ pose proof (readonly_run _ _ _ _
                    (readonly_detect_ecg_rpeaks find_peaks ecg_roi) Hr); subst s.
      exists e. unfold bind at 1. rewrite Hr. reflexivity. }
  pose proof (readonly_run _ _ _ _
                (readonly_detect_ecg_rpeaks find_peaks ecg_roi) Hr); subst s.
  rewrite (bind_ok _ _ _ _ _ Hr).
  destruct (detect_ppg_peaks find_peaks ppg_roi self) as [[ppg_pk | e] s] eqn:Hk.
  2:{ pose proof (readonly_run _ _ _ _
                    (readonly_detect_ppg_peaks find_peaks ppg_roi) Hk); subst s.
      exists e. unfold bind at 1. rewrite Hk. reflexivity. }
  pose proof (readonly_run _ _ _ _
                (readonly_detect_ppg_peaks find_peaks ppg_roi) Hk); subst s.
  rewrite (bind_ok _ _ _ _ _ Hk).
  destruct (compute_hr_returns r_idx self) as (hr & m & sd & Hhr & _).
  destruct (map_ptt_returns r_idx ppg_pk self) as (ptt_arr & Hptt & _).
  rewrite (bind_ok _ _ _ _ _ Hhr), (bind_ok _ _ _ _ _ Hptt).
  rewrite (bind_ok _ _ _ _ _ (align_signals_run ppg_roi ecg_roi self)).
  exists LibraryError. unfold bind at 1.
  rewrite delay_by_xcorr_empty; [ reflexivity | ].
  destruct Hempty as [-> | ->]; simpl.
  - right. reflexivity.
  - left. rewrite Nat.min_0_r. reflexivity.
Qed.

End PastEnd.

Lemma analyze_roi_past_end_witness :
  exists e : exn,
    analyze_roi (fun _ _ _ => Ok tt) (fun _ x => Ok x) (fun x => Ok x)
      (fun _ _ _ => Ok [])
      [0; 1; 2; 3] [5; 7; 6; 8] [1; 9; 1; 9] false "off"
      (mkAnalyzer 1 (Some 10) (Some 12)) =
    (Raise e, mkAnalyzer 1 (Some 10) (Some 12)).
Proof.
  apply (analyze_roi_past_end unit (fun _ _ _ => Ok tt) (fun _ x => Ok x)
           (fun x => Ok x) (fun _ _ _ => Ok [])
           [0; 1; 2; 3] [5; 7; 6; 8] [1; 9; 1; 9] "off"
           (mkAnalyzer 1 (Some 10) (Some 12)) 10 12).
  - reflexivity.
  - reflexivity.
  - discriminate.
  - discriminate.
  - discriminate.
  - left. change (IZR 4 <= 10 * 1). lra.
Defined.

(** ** Rate conversion by a reduced ratio *)

Lemma round_IZR (z : Z) : Py.round (IZR z) = z.
Proof.
  unfold Py.round. rewrite Int_part_IZR.
  replace (IZR z - IZR z) with 0 by lra.
  destruct (Rlt_dec 0 (1 / 2)) as [_ | Hc]; [ reflexivity | lra ].
Qed.

Lemma round_small (x : R) : 0 <= x < 1 / 2 -> Py.round x = 0%Z.
Proof.
  intros Hx. unfold Py.round.
  assert (Hi : Int_part x = 0%Z) by (symmetry; apply Int_part_spec; lra).
  rewrite Hi.
  destruct (Rlt_dec (x - 0) (1 / 2)) as [_ | Hc]; [ reflexivity | lra ].
Qed.

(** When the rates differ and do not both round to [0], [resample_to]
    hands the polyphase resampler the ratio of the rounded rates in
    lowest terms: [up] and [down] are coprime and
    [up / down = round(target_fs) / round(orig_fs)].  It returns what the
    resampler returns, labelled with [target_fs], and passes on what it
    raises. *)
Theorem resample_to_lowest_terms
  (resample_poly : list R -> Z -> Z -> result (list R))
  (x : list R) (orig_fs target_fs : R) (self : SyncAnalyzer) :
  ~ Rabs (orig_fs - target_fs) < 1e-6 ->
  (Py.round target_fs <> 0%Z \/ Py.round orig_fs <> 0%Z) ->
  exists up down : Z,
    Z.gcd up down = 1%Z /\
    (up * Py.round orig_fs = down * Py.round target_fs)%Z /\
    resample_to resample_poly x orig_fs target_fs self =
    (match resample_poly x up down with
     | Ok y => Ok (y, target_fs)
     | Raise e => Raise e
     end, self).
Proof.
  intros Hfar Hnz. unfold resample_to.
  destruct (Rlt_dec (Rabs (orig_fs - target_fs)) 1e-6) as [Hc | _];
    [ contradiction | ].
  set (up := Py.round target_fs) in *. set (down := Py.round orig_fs) in *.
  assert (Hg : Z.gcd up down <> 0%Z).
  { intros H0. apply Z.gcd_eq_0 in H0. destruct H0. tauto. }
  destruct (Z.eqb_spec (Z.gcd up down) 0) as [H0 | _]; [ contradiction | ].
  exists (up / Z.gcd up down)%Z, (down / Z.gcd up down)%Z.
  split; [ apply Z.gcd_div_gcd; [ exact Hg | reflexivity ] | ].
  split.
  - pose proof (Z.gcd_nonneg up down) as Hpos.
    pose proof (Znumtheory.Zdivide_Zdiv_eq (Z.gcd up down) up
                  ltac:(lia) (Z.gcd_divide_l up down)) as Hu.
    pose proof (Znumtheory.Zdivide_Zdiv_eq (Z.gcd up down) down
                  ltac:(lia) (Z.gcd_divide_r up down)) as Hd.
    set (u := (up / Z.gcd up down)%Z) in *.
    set (d := (down / Z.gcd up down)%Z) in *.
    set (g := Z.gcd up down) in *. clearbody u d g.
    rewrite Hu, Hd. ring.
  - unfold bind, lift, ret.
    destruct (resample_poly x (up / Z.gcd up down)%Z (down / Z.gcd up down)%Z);
      reflexivity.
Qed.

Lemma not_close_128_256 : ~ Rabs (128 - 256) < 1e-6.
Proof. unfold Rabs. destruct (Rcase_abs (128 - 256)); lra. Defined.

Lemma resample_to_lowest_terms_witness :
  exists up down : Z,
    Z.gcd up down = 1%Z /\
    resample_to (fun x _ _ => Ok x) [1; 2; 3] 128 256 init_default =
    (match (fun x (_ _ : Z) => Ok x) [1; 2; 3] up down with
     | Ok y => Ok (y, 256)
     | Raise e => Raise e
     end, init_default).
Proof.
  destruct (resample_to_lowest_terms (fun x _ _ => Ok x) [1; 2; 3] 128 256
              init_default not_close_128_256)
    as (up & down & Hg & _ & H).
  - left. rewrite round_IZR. discriminate.
  - exists up, down. split; [ exact Hg | exact H ].
Defined.

(** When the rates differ but both round to [0] (two rates below
    0.5 Hz), [resample_to] raises before reaching the resampler: the
    greatest common divisor is [0] and the division by it fails. *)
Theorem resample_to_zero_rates
  (resample_poly : list R -> Z -> Z -> result (list R))
  (x : list R) (orig_fs target_fs : R) (self : SyncAnalyzer) :
  ~ Rabs (orig_fs - target_fs) < 1e-6 ->
  Py.round target_fs = 0%Z -> Py.round orig_fs = 0%Z ->
  resample_to resample_poly x orig_fs target_fs self =
  (Raise LibraryError, self).
Proof.
  intros Hfar Ht Ho. unfold resample_to.
  destruct (Rlt_dec (Rabs (orig_fs - target_fs)) 1e-6) as [Hc | _];
    [ contradiction | ].
  rewrite Ht, Ho. reflexivity.
Qed.

Lemma not_close_02_04 : ~ Rabs (0.2 - 0.4) < 1e-6.
Proof. unfold Rabs. destruct (Rcase_abs (0.2 - 0.4)); lra. Defined.

Lemma resample_to_zero_rates_witness :
  resample_to (fun x _ _ => Ok x) [1; 2; 3] 0.2 0.4 init_default =
  (Raise LibraryError, init_default).
Proof.
  apply (resample_to_zero_rates (fun x _ _ => Ok x) [1; 2; 3] 0.2 0.4
           init_default not_close_02_04).
  - apply round_small. lra.
  - apply round_small. lra.
Defined.

(** ** Configuration calls in sequence *)

(** Setting the rate and then the ROI, as the analysis dialog does: with
    [start < end] both orders of the two calls end in the same instance;
    with [end <= start] the ROI call raises [InvalidRange], and the rate
    has already been replaced when the rate was set first, while nothing
    is changed when the ROI call came first. *)
Theorem config_calls_in_sequence (rate start_time end_time : R)
  (self : SyncAnalyzer) :
  (start_time < end_time ->
   (set_sampling_rate rate ;; set_roi start_time end_time) self =
   (Ok tt, mkAnalyzer rate (Some start_time) (Some end_time)) /\
   (set_roi start_time end_time ;; set_sampling_rate rate) self =
   (Ok tt, mkAnalyzer rate (Some start_time) (Some end_time))) /\
  (end_time <= start_time ->
   (set_sampling_rate rate ;; set_roi start_time end_time) self =
   (Raise InvalidRange, mkAnalyzer rate (roi_start self) (roi_end self)) /\
   (set_roi start_time end_time ;; set_sampling_rate rate) self =
   (Raise InvalidRange, self)).
Proof.
  unfold bind, set_sampling_rate, set_field_sampling_rate, set_roi.
  split; intros H.
  - destruct (Rle_dec end_time start_time) as [Hc | _]; [ lra | ].
    split; reflexivity.
  - destruct (Rle_dec end_time start_time) as [_ | Hc]; [ | lra ].
    split; reflexivity.
Qed.

Lemma config_calls_in_sequence_witness :
  (set_sampling_rate 250 ;; set_roi 4 2) (mkAnalyzer 128 (Some 1) (Some 3)) =
  (Raise InvalidRange, mkAnalyzer 250 (Some 1) (Some 3)) /\
  (set_sampling_rate 250 ;; set_roi 2 4) (mkAnalyzer 128 (Some 1) (Some 3)) =
  (Ok tt, mkAnalyzer 250 (Some 2) (Some 4)).
Proof.
  split.
  - apply (proj2 (config_calls_in_sequence 250 4 2
                    (mkAnalyzer 128 (Some 1) (Some 3)))). lra.
  - apply (proj1 (config_calls_in_sequence 250 2 4
                    (mkAnalyzer 128 (Some 1) (Some 3)))). lra.
Defined.

(** ** Which samples an ROI selects *)

(** For an ROI that does not end before time [0], sample [i] of the
    extracted segment is sample [s + i] of the signal, for
    [s = max(0, floor(roi_start * fs))] and as long as [s + i] is below
    [e = min(len(signal), floor(roi_end * fs))]; the segment has no
    further samples. *)
Theorem extract_roi_indices {A : Type} (signal : list A) (self : SyncAnalyzer)
  (rs re : R) :
  roi_start self = Some rs -> roi_end self = Some re ->
  0 <= re * sampling_rate self ->
  let s := Z.to_nat (Z.max 0 (Spec.round_down (rs * sampling_rate self))) in
  let e := Z.to_nat (Z.min (Z.of_nat (length signal))
                       (Spec.round_down (re * sampling_rate self))) in
  exists seg : list A,
    extract_roi signal self = (Ok seg, self) /\
    (e <= length signal)%nat /\
    forall i : nat,
      seg !! i = if decide (s + i < e)%nat then signal !! (s + i)%nat else None.
Proof.
  intros Hs He Hpos s e.
  rewrite (extract_roi_agrees signal self rs re Hs He Hpos).
  unfold Spec.extract_roi. rewrite Hs, He.
  eexists. split; [ reflexivity | ].
  split; [ unfold e; lia | ].
  intros i. unfold Spec.samples_between. fold s.
  rewrite lookup_take, lookup_drop.
  destruct (int_nonneg _ Hpos) as [_ Hge]. unfold Spec.round_down in *.
  destruct (decide (s + i < e)%nat) as [Hlt | Hge'];
    destruct (decide (i < Z.to_nat
                            (Z.min (Z.of_nat (length signal))
                               (Int_part (re * sampling_rate self)) -
                             Z.max 0 (Int_part (rs * sampling_rate self)))))%nat
      as [Hi | Hi]; try reflexivity; unfold s, e in *; lia.
Qed.

Lemma extract_roi_indices_witness :
  exists seg : list Z,
    extract_roi [10; 20; 30; 40]%Z (mkAnalyzer 1 (Some 0) (Some 4)) =
    (Ok seg, mkAnalyzer 1 (Some 0) (Some 4)).
Proof.
  destruct (extract_roi_indices [10; 20; 30; 40]%Z
              (mkAnalyzer 1 (Some 0) (Some 4)) 0 4)
    as (seg & H & _).
  - reflexivity.
  - reflexivity.
  - simpl. lra.
  - exists seg. exact H.
Defined.

(** ** What the result records *)

Section Echo.

Variable coeffs : Type.
Variable butter : Z -> R -> R -> result coeffs.
Variable filtfilt : coeffs -> list R -> result (list R).
Variable sp_detrend : list R -> result (list R).
Variable find_peaks : list R -> Z -> R -> result (list Z).

Lemma condition_time (t ppg ecg : list R) (do_detrend : bool)
  (filt_mode : string) (self after : SyncAnalyzer)
  (t_roi ecg_f ppg_f : list R) :
  analyze_roi_condition butter filtfilt sp_detrend
    t ppg ecg do_detrend filt_mode self = (Ok (t_roi, ecg_f, ppg_f), after) ->
  extract_roi t self = (Ok t_roi, self).
Proof.
  unfold analyze_roi_condition. intros H.
  apply bind_inv in H as (ppg_roi & s & H1 & H).
  pose proof (readonly_run _ _ _ _ (readonly_extract_roi ppg) H1); subst s.
  apply bind_inv in H as (ecg_roi & s & H2 & H).
  pose proof (readonly_run _ _ _ _ (readonly_extract_roi ecg) H2); subst s.
  apply bind_inv in H as (t_roi' & s & H3 & H).
  pose proof (readonly_run _ _ _ _ (readonly_extract_roi t) H3); subst s.
  apply bind_inv in H as ([p e] & s & _ & H).
  apply bind_inv in H as ([ef pf] & s' & _ & H).
  unfold ret in H. injection H as -> _ _ _. exact H3.
Qed.

(** Whenever [analyze_roi] returns, the result records the ROI bounds
    and the sampling rate of the instance, and [n_samples] is the number
    of samples [extract_roi] selects from the time array, never more
    than the array holds. *)
Theorem analyze_roi_records_config (t ppg ecg : list R) (do_detrend : bool)
  (filt_mode : string) (self after : SyncAnalyzer) (res : ROIResult) :
  analyze_roi butter filtfilt sp_detrend find_peaks
    t ppg ecg do_detrend filt_mode self = (Ok res, after) ->
  roi_start self = Some (start_s res) /\
  roi_end self = Some (end_s res) /\
  fs res = sampling_rate self /\
  exists t_roi : list R,
    extract_roi t self = (Ok t_roi, self) /\
    n_samples res = Z.of_nat (length t_roi) /\
    (0 <= n_samples res <= Z.of_nat (length t))%Z.
Proof.
  unfold analyze_roi. unfold bind at 1. unfold get.
  destruct (roi_start self) as [rs | ] eqn:Hs; [ | discriminate ].
  destruct (roi_end self) as [re | ] eqn:He; [ | discriminate ].
  intros H.
  apply bind_inv in H as ([[t_roi ecg_f] ppg_f] & s & Hc & H).
  pose proof (readonly_run _ _ _ _
                (readonly_condition _ butter filtfilt sp_detrend
                   t ppg ecg do_detrend filt_mode) Hc); subst s.
  apply condition_time in Hc.
  unfold analyze_roi_measure in H.
  apply bind_inv in H as (r_idx & s & Hr & H).
  pose proof (readonly_run _ _ _ _
                (readonly_detect_ecg_rpeaks find_peaks ecg_f) Hr); subst s.
  apply bind_inv in H as (ppg_pk & s & Hk & H).
  pose proof (readonly_run _ _ _ _
                (readonly_detect_ppg_peaks find_peaks ppg_f) Hk); subst s.
  apply bind_inv in H as ([[hr m] sd] & s & Hhr & H).
  pose proof (readonly_run _ _ _ _ (readonly_compute_hr r_idx) Hhr); subst s.
  apply bind_inv in H as (ptt_arr & s & Hptt & H).
  pose proof (readonly_run _ _ _ _ (readonly_map_ptt r_idx ppg_pk) Hptt);
    subst s.
  apply bind_inv in H as ([ppg_cut ecg_cut] & s & Hcut & H).
  pose proof (readonly_run _ _ _ _ (readonly_align_signals ppg_f ecg_f) Hcut);
    subst s.
  apply bind_inv in H as (delay_s & s & Hd & H).
  pose proof (readonly_run _ _ _ _ (readonly_delay_by_xcorr ecg_cut ppg_cut) Hd);
    subst s.
  apply bind_inv in H as (d & s & Hq & H).
  pose proof (readonly_run _ _ _ _ (readonly_compute_sqi ppg_f) Hq); subst s.
  unfold bind, get, ret in H. injection H as <- _.
  cbn [start_s end_s fs n_samples].
  repeat split.
  exists t_roi. split; [ exact Hc | ]. split; [ reflexivity | ].
  unfold extract_roi, bind, get, ret in Hc. rewrite Hs, He in Hc.
  injection Hc as <-. unfold Py.slice.
  rewrite length_firstn, length_skipn. lia.
Qed.

End Echo.

Lemma analyze_roi_sample_run :
  exists res : ROIResult,
    analyze_roi (fun _ _ _ => Ok tt) (fun _ x => Ok x) (fun x => Ok x)
      (fun _ _ _ => Ok [])
      [0; 1; 2; 3] [5; 7; 6; 8] [1; 9; 1; 9] false "off"
      (mkAnalyzer 1 (Some 0) (Some 4)) =
    (Ok res, mkAnalyzer 1 (Some 0) (Some 4)).
Proof.
  destruct (measure_returns (fun _ _ _ => Ok []) 0 4
              [0; 1; 2; 3] [1; 9; 1; 9] [5; 7; 6; 8] [] []
              (mkAnalyzer 1 (Some 0) (Some 4)))
    as (res & _ & Hres & _); try discriminate; try reflexivity.
  exists res. unfold analyze_roi. unfold bind at 1. unfold get.
  cbn [roi_start roi_end].
  rewrite (bind_ok _ _ _ _ _
             (condition_unfiltered unit (fun _ _ _ => Ok tt) (fun _ x => Ok x)
                (fun x => Ok x) _ _ _ _ _ _ "off" _
                (extract_roi_whole _ _ _ _) (extract_roi_whole _ _ _ _)
                (extract_roi_whole _ _ _ _)
                ltac:(discriminate) ltac:(discriminate) ltac:(discriminate))).
  exact Hres.
Defined.

Lemma analyze_roi_records_config_witness :
  exists res : ROIResult,
    analyze_roi (fun _ _ _ => Ok tt) (fun _ x => Ok x) (fun x => Ok x)
      (fun _ _ _ => Ok [])
      [0; 1; 2; 3] [5; 7; 6; 8] [1; 9; 1; 9] false "off"
      (mkAnalyzer 1 (Some 0) (Some 4)) =
    (Ok res, mkAnalyzer 1 (Some 0) (Some 4)) /\
    fs res = 1.
Proof.
  destruct analyze_roi_sample_run as (res & H).
  exists res. split; [ exact H | ].
  exact (proj1 (proj2 (proj2
    (analyze_roi_records_config unit _ _ _ _ _ _ _ _ _ _ _ res H)))).
Defined.

(** * File loading *)

(** ** The key search *)

Lemma has_key_In {V : Type} (d : Loader.dict V) (k : string) :
  Loader.has_key d k = true <-> In k (Loader.keys d).
Proof.
  unfold Loader.has_key. rewrite existsb_exists. split.
  - intros (x & Hx & Heq). apply String.eqb_eq in Heq. subst x. exact Hx.
  - intros H. exists k. split; [ exact H | apply String.eqb_refl ].
Qed.

Lemma first_exact_Some {V : Type} (d : Loader.dict V) (candidates : list string)
  (c : string) :
  Loader.first_exact d candidates = Some c ->
  In c candidates /\ In c (Loader.keys d).
Proof.
  induction candidates as [ | a rest IH]; simpl; [ discriminate | ].
  destruct (Loader.has_key d a) eqn:Ha.
  - intros [= <-]. split; [ left; reflexivity | apply has_key_In; exact Ha ].
  - intros H. destruct (IH H). split; [ right | ]; assumption.
Qed.

Lemma first_exact_None {V : Type} (d : Loader.dict V) (candidates : list string) :
  Loader.first_exact d candidates = None <->
  forall c, In c candidates -> ~ In c (Loader.keys d).
Proof.
  induction candidates as [ | a rest IH]; simpl.
  - split; [ intros _ c [] | reflexivity ].
  - destruct (Loader.has_key d a) eqn:Ha.
    + split; [ discriminate | ]. intros H. exfalso.
      apply (H a); [ left; reflexivity | apply has_key_In; exact Ha ].
    + rewrite IH. split.
      * intros H c [<- | Hc]; [ | apply H; exact Hc ].
        intros Hin. apply has_key_In in Hin. congruence.
      * intros H c Hc. apply H. right. exact Hc.
Qed.

(** What the lower-case map holds: under each lower-case form, one of
    the keys with that form. *)
Lemma lower_map_fold (ks : list string) :
  forall (m : gmap string string) (lc k : string),
    fold_left (fun m k => <[Loader.lower k := k]> m) ks m !! lc = Some k ->
    m !! lc = Some k \/ (In k ks /\ Loader.lower k = lc).
Proof.
  induction ks as [ | a ks IH]; intros m lc k H; simpl in H.
  - left. exact H.
  - apply IH in H. destruct H as [H | [H1 H2]].
    + destruct (decide (Loader.lower a = lc)) as [Heq | Hne].
      * subst lc. rewrite lookup_insert_eq in H. injection H as <-.
        right. split; [ left; reflexivity | reflexivity ].
      * rewrite lookup_insert_ne in H by exact Hne. left. exact H.
    + right. split; [ right; exact H1 | exact H2 ].
Qed.

Lemma lower_map_Some (ks : list string) (lc k : string) :
  Loader.lower_map ks !! lc = Some k -> In k ks /\ Loader.lower k = lc.
Proof.
  unfold Loader.lower_map. intros H. apply lower_map_fold in H.
  destruct H as [H | H]; [ rewrite lookup_empty in H; discriminate | exact H ].
Qed.

Lemma lower_map_fold_None (ks : list string) :
  forall (m : gmap string string) (lc : string),
    fold_left (fun m k => <[Loader.lower k := k]> m) ks m !! lc = None <->
    m !! lc = None /\ forall k, In k ks -> Loader.lower k <> lc.
Proof.
  induction ks as [ | a ks IH]; intros m lc; simpl.
  - split; [ intros H; split; [ exact H | intros k [] ] | intros [H _]; exact H ].
  - rewrite IH. split.
    + intros [H1 H2].
      destruct (decide (Loader.lower a = lc)) as [Heq | Hne].
      * subst lc. rewrite lookup_insert_eq in H1. discriminate.
      * rewrite lookup_insert_ne in H1 by exact Hne.
        split; [ exact H1 | ]. intros k [<- | Hk]; [ exact Hne | apply H2, Hk ].
    + intros [H1 H2]. split.
      * rewrite lookup_insert_ne; [ exact H1 | ]. apply H2. left. reflexivity.
      * intros k Hk. apply H2. right. exact Hk.
Qed.

Lemma lower_map_None (ks : list string) (lc : string) :
  Loader.lower_map ks !! lc = None <->
  forall k, In k ks -> Loader.lower k <> lc.
Proof.
  unfold Loader.lower_map. rewrite lower_map_fold_None.
  rewrite lookup_empty. tauto.
Qed.

Lemma first_folded_Some (lm : gmap string string) (candidates : list string)
  (k : string) :
  Loader.first_folded lm candidates = Some k ->
  exists c, In c candidates /\ lm !! Loader.lower c = Some k.
Proof.
  induction candidates as [ | a rest IH]; simpl; [ discriminate | ].
  destruct (lm !! Loader.lower a) as [k' | ] eqn:Ha.
  - intros [= <-]. exists a. split; [ left; reflexivity | exact Ha ].
  - intros H. destruct (IH H) as (c & Hc & Hl).
    exists c. split; [ right; exact Hc | exact Hl ].
Qed.

Lemma first_folded_None (lm : gmap string string) (candidates : list string) :
  Loader.first_folded lm candidates = None <->
  forall c, In c candidates -> lm !! Loader.lower c = None.
Proof.
  induction candidates as [ | a rest IH]; simpl.
  - split; [ intros _ c [] | reflexivity ].
  - destruct (lm !! Loader.lower a) as [k' | ] eqn:Ha.
    + split; [ discriminate | ]. intros H.
      specialize (H a (or_introl eq_refl)). congruence.
    + rewrite IH. split.
      * intros H c [<- | Hc]; [ exact Ha | apply H; exact Hc ].
      * intros H c Hc. apply H. right. exact Hc.
Qed.

(** A key returned by [_find_first_key] is a key of the dictionary, and
    it equals one of the candidates up to the case of its letters. *)
Theorem find_first_key_sound {V : Type} (d : Loader.dict V)
  (candidates : list string) (k : string) :
  Loader._find_first_key d candidates = Some k ->
  In k (Loader.keys d) /\
  exists c, In c candidates /\ Loader.lower k = Loader.lower c.
Proof.
  unfold Loader._find_first_key.
  destruct (Loader.first_exact d candidates) as [c | ] eqn:He.
  - intros [= <-]. apply first_exact_Some in He. destruct He as [Hc Hk].
    split; [ exact Hk | ]. exists c. split; [ exact Hc | reflexivity ].
  - intros H. apply first_folded_Some in H. destruct H as (c & Hc & Hl).
    apply lower_map_Some in Hl. destruct Hl as [Hk Hlow].
    split; [ exact Hk | ]. exists c. split; [ exact Hc | exact Hlow ].
Qed.

Lemma find_first_key_sound_witness :
  In "PPG_Raw" (Loader.keys [("PPG_Raw", 1%nat); ("ecg", 2%nat)]) /\
  exists c,
    In c ["ppg_raw"; "ppg"] /\ Loader.lower "PPG_Raw" = Loader.lower c.
Proof.
  apply (find_first_key_sound [("PPG_Raw", 1%nat); ("ecg", 2%nat)]
           ["ppg_raw"; "ppg"] "PPG_Raw").
  reflexivity.
Defined.

(** [_find_first_key] gives up exactly when no key of the dictionary
    equals a candidate up to the case of its letters. *)
Theorem find_first_key_complete {V : Type} (d : Loader.dict V)
  (candidates : list string) :
  Loader._find_first_key d candidates = None <->
  forall c k, In c candidates -> In k (Loader.keys d) ->
              Loader.lower k <> Loader.lower c.
Proof.
  unfold Loader._find_first_key. split.
  - destruct (Loader.first_exact d candidates) as [c | ] eqn:He;
      [ discriminate | ].
    intros H c k Hc Hk.
    rewrite first_folded_None in H. specialize (H c Hc).
    rewrite lower_map_None in H. apply H. exact Hk.
  - intros H.
    destruct (Loader.first_exact d candidates) as [c | ] eqn:He.
    + apply first_exact_Some in He. destruct He as [Hc Hk].
      exfalso. apply (H c c Hc Hk). reflexivity.
    + apply first_folded_None. intros c Hc.
      apply lower_map_None. intros k Hk. apply H; assumption.
Qed.

(** An exact match has priority: when some candidate is itself a key,
    the answer is such a candidate, even if an earlier candidate matches
    another key up to case. *)
Theorem find_first_key_exact_first {V : Type} (d : Loader.dict V)
  (candidates : list string) (c : string) :
  In c candidates -> In c (Loader.keys d) ->
  exists c' : string,
    Loader._find_first_key d candidates = Some c' /\
    In c' candidates /\ In c' (Loader.keys d).
Proof.
  intros Hc Hk. unfold Loader._find_first_key.
  destruct (Loader.first_exact d candidates) as [c' | ] eqn:He.
  - exists c'. split; [ reflexivity | apply first_exact_Some; exact He ].
  - exfalso. rewrite first_exact_None in He. apply (He c Hc Hk).
Qed.

Lemma find_first_key_exact_first_witness :
  exists c' : string,
    Loader._find_first_key [("PPG_RAW", 1%nat); ("ppg", 2%nat)]
      ["ppg_raw"; "ppg"; "PPG"] = Some c' /\
    In c' ["ppg_raw"; "ppg"; "PPG"] /\
    In c' (Loader.keys [("PPG_RAW", 1%nat); ("ppg", 2%nat)]).
Proof.
  apply (find_first_key_exact_first [("PPG_RAW", 1%nat); ("ppg", 2%nat)]
           ["ppg_raw"; "ppg"; "PPG"] "ppg").
  - right. left. reflexivity.
  - right. left. reflexivity.
Defined.

(** ** Loading a MAT file *)

Lemma slice_to_nat {A : Type} (l : list A) (n : nat) :
  Py.slice_to l (Z.of_nat n) = firstn n l.
Proof.
  destruct (Nat.le_gt_cases n (length l)) as [Hle | Hgt].
  - rewrite slice_to_prefix by lia. rewrite Nat2Z.id. reflexivity.
  - unfold Py.slice_to, Py.slice, Py.adjust.
    destruct (Z.ltb_spec (Z.of_nat n) 0) as [? | _]; [ lia | ].
    change (0 <? 0)%Z with false. cbv iota.
    rewrite (Z.min_l 0) by apply Zle_0_nat. rewrite Z.min_r by lia.
    rewrite Z.sub_0_r, Nat2Z.id. change (Z.to_nat 0) with 0%nat.
    rewrite drop_0, (firstn_all2 l (n:=n)) by lia. apply firstn_all.
Qed.

Lemma length_arange_over (n : nat) (rate : R) :
  length (Loader.arange_over n rate) = n.
Proof. unfold Loader.arange_over. rewrite length_map, length_seq. reflexivity. Qed.

(** Unfolds the sequencing of a loader method on a given instance. *)
Ltac loader_run :=
  unfold Loader.bind, Loader.lift, Loader.ret, Loader.raise, Loader.get,
    Loader.set_sampling_rate, Loader.set_arrays.

Section MatFile.

Variable loadmat : string -> option (Loader.dict Loader.ndarray).

(** When [load_mat] returns, the three arrays have one length, the time
    array is [0, 1/fs, 2/fs, ...] for the rate it returns, and the
    loader holds exactly the arrays and the rate that were returned. *)
Theorem load_mat_result (mat_path : string)
  (ppg_key ecg_key fs_key : option string) (self after : Loader.DataLoader)
  (t p e : list R) (rate : R) :
  Loader.load_mat loadmat mat_path ppg_key ecg_key fs_key self =
  (Loader.Ok (t, p, e, rate), after) ->
  length p = length e /\
  t = Loader.arange_over (length p) rate /\
  after = Loader.mkLoader (Some p) (Some e) (Some t) rate.
Proof.
  unfold Loader.load_mat.
  destruct (loadmat mat_path) as [mdict | ]; [ | discriminate ].
  destruct (Loader.or_str ppg_key _) as [pk | ]; [ | discriminate ].
  destruct (Loader.or_str ecg_key _) as [ek | ]; [ | discriminate ].
  loader_run.
  destruct (Loader.getitem _ pk) as [pv | ]; [ | discriminate ].
  destruct (Loader.getitem _ ek) as [ev | ]; [ | discriminate ].
  rewrite !slice_to_nat.
  set (n := Nat.min (length (Loader._flatten_if_needed pv))
              (length (Loader._flatten_if_needed ev))).
  assert (Hp : length (firstn n (Loader._flatten_if_needed pv)) = n)
    by (rewrite length_firstn; unfold n; lia).
  assert (He : length (firstn n (Loader._flatten_if_needed ev)) = n)
    by (rewrite length_firstn; unfold n; lia).
  destruct (Loader.or_str fs_key _) as [fk | ].
  - destruct (Loader.getitem _ fk) as [fv | ]; [ | discriminate ].
    destruct (Loader.to_float fv) as [v | ]; [ | discriminate ].
    cbn [Loader.sampling_rate]. intros [= <- <- <- <- <-].
    rewrite Hp, He. repeat split.
  - intros [= <- <- <- <- <-].
    rewrite Hp, He. repeat split.
Qed.

(** [load_mat] is all or nothing: when it raises, whatever the reason
    (the reader failed, a key is missing, the rate is not a single
    number), the loader is left exactly as it was. *)
Theorem load_mat_atomic (mat_path : string)
  (ppg_key ecg_key fs_key : option string) (self after : Loader.DataLoader)
  (err : Loader.exn) :
  Loader.load_mat loadmat mat_path ppg_key ecg_key fs_key self =
  (Loader.Raise err, after) ->
  after = self.
Proof.
  unfold Loader.load_mat.
  destruct (loadmat mat_path) as [mdict | ];
    [ | loader_run; intros [= _ <-]; reflexivity ].
  destruct (Loader.or_str ppg_key _) as [pk | ];
    [ | loader_run; intros [= _ <-]; reflexivity ].
  destruct (Loader.or_str ecg_key _) as [ek | ];
    [ | loader_run; intros [= _ <-]; reflexivity ].
  loader_run.
  destruct (Loader.getitem _ pk) as [pv | ];
    [ | intros [= _ <-]; reflexivity ].
  destruct (Loader.getitem _ ek) as [ev | ];
    [ | intros [= _ <-]; reflexivity ].
  destruct (Loader.or_str fs_key _) as [fk | ].
  - destruct (Loader.getitem _ fk) as [fv | ];
      [ | intros [= _ <-]; reflexivity ].
    destruct (Loader.to_float fv) as [v | ];
      [ discriminate | intros [= _ <-]; reflexivity ].
  - discriminate.
Qed.

End MatFile.

Lemma load_mat_sample :
  Loader.load_mat
    (fun _ => Some [("__header__", []); ("PPG", [[1; 2; 3]]);
                    ("ecg", [[4]; [5]]); ("Fs", [[100]])])
    "rec.mat" None None None (Loader.init 128) =
  (Loader.Ok (Loader.arange_over 2 100, [1; 2], [4; 5], 100),
   Loader.mkLoader (Some [1; 2]) (Some [4; 5])
     (Some (Loader.arange_over 2 100)) 100).
Proof.
  unfold Loader.load_mat. loader_run.
  cbn -[Loader.arange_over Py.slice_to]. rewrite !slice_to_nat. reflexivity.
Defined.

Lemma load_mat_result_witness :
  length [1; 2] = length [4; 5] /\
  Loader.arange_over 2 100 = Loader.arange_over (length [1; 2]) 100.
Proof.
  destruct (load_mat_result _ _ _ _ _ _ _ _ _ _ _ load_mat_sample)
    as (H1 & H2 & _).
  split; assumption.
Defined.

Lemma load_mat_atomic_witness :
  Loader.init 128 = Loader.init 128.
Proof.
  apply (load_mat_atomic (fun _ => None) "missing.mat" None None None
           (Loader.init 128) (Loader.init 128) Loader.LoadFailed).
  reflexivity.
Defined.

(** ** Loading a CSV file *)

Lemma lower_map_has (ks : list string) (k : string) :
  In k ks -> Loader.lower_map ks !! Loader.lower k <> None.
Proof.
  intros Hk Hnone. rewrite lower_map_None in Hnone.
  apply (Hnone k Hk). reflexivity.
Qed.

(** The column guess of [load_csv] answers with a column of the table
    whose lower-case name is one of the candidates, and it gives up
    exactly when no column has such a name. *)
Theorem guess_column_spec (ks candidates : list string) :
  (forall k : string,
      Loader.guess_column (map Loader.lower ks) (Loader.lower_map ks)
        candidates = Some k ->
      In k ks /\ In (Loader.lower k) candidates) /\
  (Loader.guess_column (map Loader.lower ks) (Loader.lower_map ks)
     candidates = None <->
   forall k : string, In k ks -> ~ In (Loader.lower k) candidates).
Proof.
  induction candidates as [ | c rest [IH1 IH2]]; simpl.
  - split; [ discriminate | ]. split; [ intros _ k _ [] | reflexivity ].
  - destruct (existsb (String.eqb c) (map Loader.lower ks)) eqn:Hex.
    + apply existsb_exists in Hex. destruct Hex as (lc & Hin & Heq).
      apply String.eqb_eq in Heq. subst lc.
      apply in_map_iff in Hin. destruct Hin as (k0 & Hlow & Hk0).
      split.
      * intros k Hk. apply lower_map_Some in Hk. destruct Hk as [Hk Hl].
        split; [ exact Hk | left; symmetry; exact Hl ].
      * split.
        -- intros Hnone. exfalso. rewrite <- Hlow in Hnone.
           exact (lower_map_has ks k0 Hk0 Hnone).
        -- intros H. exfalso. apply (H k0 Hk0). left. symmetry. exact Hlow.
    + assert (Hnc : forall k, In k ks -> Loader.lower k <> c).
      { intros k Hk Heq.
        assert (Ht : existsb (String.eqb c) (map Loader.lower ks) = true).
        { apply existsb_exists. exists c. split.
          - rewrite <- Heq. apply in_map. exact Hk.
          - apply String.eqb_refl. }
        congruence. }
      split.
      * intros k Hk. destruct (IH1 k Hk) as [H1 H2].
        split; [ exact H1 | right; exact H2 ].
      * rewrite IH2. split.
        -- intros H k Hk [Heq | Hin]; [ | exact (H k Hk Hin) ].
           apply (Hnc k Hk). symmetry. exact Heq.
        -- intros H k Hk Hin. apply (H k Hk). right. exact Hin.
Qed.

Lemma or_float_idem (a : option R) (b : R) :
  Loader.or_float (Some (Loader.or_float a b)) b = Loader.or_float a b.
Proof.
  unfold Loader.or_float at 1.
  destruct (Req_dec_T (Loader.or_float a b) 0) as [H0 | _]; [ | reflexivity ].
  unfold Loader.or_float in *. destruct a as [v | ]; [ | reflexivity ].
  destruct (Req_dec_T v 0) as [_ | Hv]; [ reflexivity | contradiction ].
Qed.

Lemma or_float_nonzero (v b : R) : v <> 0 -> Loader.or_float (Some v) b = v.
Proof.
  intros Hv. unfold Loader.or_float.
  destruct (Req_dec_T v 0) as [H0 | _]; [ contradiction | reflexivity ].
Qed.

(** The median of equal values. *)
Lemma insert_sorted_repeat (c : R) (n : nat) :
  Loader.insert_sorted c (repeat c n) = c :: repeat c n.
Proof.
  destruct n as [ | n]; simpl; [ reflexivity | ].
  destruct (Rle_dec c c) as [_ | Hc]; [ reflexivity | lra ].
Qed.

Lemma sort_repeat (c : R) (n : nat) : Loader.sort (repeat c n) = repeat c n.
Proof.
  unfold Loader.sort. induction n as [ | n IH]; simpl; [ reflexivity | ].
  rewrite IH. apply insert_sorted_repeat.
Qed.

Lemma nth_repeat_below (c d : R) (n i : nat) :
  (i < n)%nat -> nth i (repeat c n) d = c.
Proof.
  revert i. induction n as [ | n IH]; intros i Hi; [ lia | ].
  destruct i as [ | i]; simpl; [ reflexivity | apply IH; lia ].
Qed.

Lemma median_repeat (c : R) (n : nat) :
  (1 <= n)%nat -> Loader.median (repeat c n) = c.
Proof.
  intros Hn. unfold Loader.median. rewrite sort_repeat, repeat_length.
  assert (Hhalf : (n / 2 < n)%nat) by (apply Nat.div_lt; lia).
  destruct (Nat.even n).
  - rewrite !nth_repeat_below by lia. lra.
  - apply nth_repeat_below. exact Hhalf.
Qed.

Lemma diff_evenly_spaced (t0 dt : R) (k : nat) :
  forall a : nat,
    Py.diff (map (fun i : nat => t0 + INR i * dt) (seq a k)) = repeat dt (k - 1).
Proof.
  induction k as [ | [ | k] IH]; intros a; try reflexivity.
  change (seq a (S (S k))) with (a :: seq (S a) (S k)).
  change (seq (S a) (S k)) with (S a :: seq (S (S a)) k) at 1.
  cbn [map].
  change (Py.diff (?x :: ?y :: ?r)) with ((y - x) :: Py.diff (y :: r)).
  change ((t0 + INR (S a) * dt) :: map (fun i : nat => t0 + INR i * dt)
            (seq (S (S a)) k))
    with (map (fun i : nat => t0 + INR i * dt) (seq (S a) (S k))).
  rewrite IH. replace (S (S k) - 1)%nat with (S (S k - 1)) by lia.
  cbn [repeat]. f_equal. rewrite S_INR. ring.
Qed.

Section CsvFile.

Variable read_csv : string -> option (Loader.dict (list R)).

(** When [load_csv] returns, the PPG and ECG arrays have one length, the
    time array is no longer than they are, and the loader holds exactly
    the arrays and the rate that were returned. *)
Theorem load_csv_result (csv_path : string)
  (time_col ppg_col ecg_col : option string) (fs : option R)
  (self after : Loader.DataLoader) (t p e : list R) (rate : R) :
  Loader.load_csv read_csv csv_path time_col ppg_col ecg_col fs self =
  (Loader.Ok (t, p, e, rate), after) ->
  length p = length e /\
  (length t <= length p)%nat /\
  after = Loader.mkLoader (Some p) (Some e) (Some t) rate.
Proof.
  unfold Loader.load_csv.
  destruct (read_csv csv_path) as [df | ]; [ | discriminate ].
  set (tc := match time_col with None => _ | Some c => Some c end).
  set (pc := match ppg_col with None => _ | Some c => Some c end).
  set (ec := match ecg_col with None => _ | Some c => Some c end).
  clearbody tc pc ec.
  destruct pc as [pc | ]; [ | discriminate ].
  destruct ec as [ec | ]; [ | discriminate ].
  loader_run.
  destruct (Loader.getitem df pc) as [pv | ]; [ | discriminate ].
  destruct (Loader.getitem df ec) as [ev | ]; [ | discriminate ].
  rewrite !slice_to_nat.
  set (n := Nat.min (length pv) (length ev)).
  assert (Hp : length (firstn n pv) = n) by (rewrite length_firstn; unfold n; lia).
  assert (He : length (firstn n ev) = n) by (rewrite length_firstn; unfold n; lia).
  destruct tc as [tc | ].
  - destruct (Loader.getitem df tc) as [tv | ]; [ | discriminate ].
    cbn [Loader.sampling_rate]. intros [= <- <- <- <- <-].
    rewrite Hp, He. split; [ reflexivity | ]. split; [ | reflexivity ].
    rewrite slice_to_nat, length_firstn. lia.
  - cbn [Loader.sampling_rate]. intros [= <- <- <- <- <-].
    rewrite Hp, He. split; [ reflexivity | ]. split; [ | reflexivity ].
    rewrite length_arange_over. lia.
Qed.

(** [load_csv] is all or nothing: when it raises, the loader is left
    exactly as it was. *)
Theorem load_csv_atomic (csv_path : string)
  (time_col ppg_col ecg_col : option string) (fs : option R)
  (self after : Loader.DataLoader) (err : Loader.exn) :
  Loader.load_csv read_csv csv_path time_col ppg_col ecg_col fs self =
  (Loader.Raise err, after) ->
  after = self.
Proof.
  unfold Loader.load_csv.
  destruct (read_csv csv_path) as [df | ];
    [ | loader_run; intros [= _ <-]; reflexivity ].
  set (tc := match time_col with None => _ | Some c => Some c end).
  set (pc := match ppg_col with None => _ | Some c => Some c end).
  set (ec := match ecg_col with None => _ | Some c => Some c end).
  clearbody tc pc ec.
  destruct pc as [pc | ]; [ | loader_run; intros [= _ <-]; reflexivity ].
  destruct ec as [ec | ]; [ | loader_run; intros [= _ <-]; reflexivity ].
  loader_run.
  destruct (Loader.getitem df pc) as [pv | ]; [ | intros [= _ <-]; reflexivity ].
  destruct (Loader.getitem df ec) as [ev | ]; [ | intros [= _ <-]; reflexivity ].
  destruct tc as [tc | ].
  - destruct (Loader.getitem df tc) as [tv | ];
      [ discriminate | intros [= _ <-]; reflexivity ].
  - discriminate.
Qed.

(** A time column that advances by a constant positive step [dt], with
    three or more rows and no rate given: [load_csv] infers the rate
    [1 / dt], stores it, and returns the time column as it is. *)
Theorem load_csv_infers_rate (csv_path tc pc ec : string)
  (df : Loader.dict (list R)) (pcol ecol : list R) (t0 dt : R) (m : nat)
  (self : Loader.DataLoader) :
  read_csv csv_path = Some df ->
  Loader.getitem df pc = Loader.Ok pcol ->
  Loader.getitem df ec = Loader.Ok ecol ->
  Loader.getitem df tc =
    Loader.Ok (map (fun i : nat => t0 + INR i * dt) (seq 0 m)) ->
  0 < dt ->
  let n := Nat.min (length pcol) (length ecol) in
  (3 <= n)%nat -> (n <= m)%nat ->
  let t_raw := map (fun i : nat => t0 + INR i * dt) (seq 0 n) in
  Loader.load_csv read_csv csv_path (Some tc) (Some pc) (Some ec) None self =
  (Loader.Ok (t_raw, firstn n pcol, firstn n ecol, 1 / dt),
   Loader.mkLoader (Some (firstn n pcol)) (Some (firstn n ecol))
     (Some t_raw) (1 / dt)).
Proof.
  intros Hdf Hp He Ht Hdt n Hn Hm t_raw.
  unfold Loader.load_csv. rewrite Hdf. loader_run.
  rewrite Hp, He, Ht. rewrite !slice_to_nat. fold n.
  rewrite firstn_map, take_seq, (Nat.min_l n m) by exact Hm.
  rewrite length_map, length_seq.
  destruct (Nat.ltb_spec 2 n) as [_ | ?]; [ | lia ].
  rewrite diff_evenly_spaced, median_repeat by lia.
  destruct (Rlt_dec 0 dt) as [_ | Hc]; [ | contradiction ].
  replace (1.0 / dt) with (1 / dt) by lra.
  assert (Hnz : 1 / dt <> 0).
  { unfold Rdiv. rewrite Rmult_1_l. apply Rinv_neq_0_compat. lra. }
  rewrite or_float_nonzero by exact Hnz.
  reflexivity.
Qed.

(** Without a time column, named or guessed, the time array is
    [0, 1/f, 2/f, ...] and the stored rate is [f], where [f] is the rate
    given by the caller, or the rate of the loader when none is given or
    the given one is [0.0]. *)
Theorem load_csv_without_time (csv_path pc ec : string)
  (df : Loader.dict (list R)) (pcol ecol : list R) (fs : option R)
  (self : Loader.DataLoader) :
  read_csv csv_path = Some df ->
  Loader.guess_column (map Loader.lower (Loader.keys df))
    (Loader.lower_map (Loader.keys df))
    ["time"; "t"; "sec"; "seconds"; "ms"; "timestamp"] = None ->
  Loader.getitem df pc = Loader.Ok pcol ->
  Loader.getitem df ec = Loader.Ok ecol ->
  let n := Nat.min (length pcol) (length ecol) in
  let f := Loader.or_float fs (Loader.sampling_rate self) in
  Loader.load_csv read_csv csv_path None (Some pc) (Some ec) fs self =
  (Loader.Ok (Loader.arange_over n f, firstn n pcol, firstn n ecol, f),
   Loader.mkLoader (Some (firstn n pcol)) (Some (firstn n ecol))
     (Some (Loader.arange_over n f)) f).
Proof.
  intros Hdf Hguess Hp He n f.
  unfold Loader.load_csv. rewrite Hdf, Hguess. loader_run.
  rewrite Hp, He. rewrite !slice_to_nat. fold n.
  cbn [Loader.sampling_rate]. fold f.
  unfold f at 2 4. rewrite or_float_idem. reflexivity.
Qed.

End CsvFile.

Lemma guess_column_spec_witness :
  In "Time" ["Time"; "PPG"] /\ In (Loader.lower "Time") ["time"; "t"].
Proof.
  apply (proj1 (guess_column_spec ["Time"; "PPG"] ["time"; "t"]) "Time").
  reflexivity.
Defined.

Lemma load_csv_sample :
  Loader.load_csv
    (fun _ => Some [("t", [0; 1; 2]); ("ppg", [1; 2; 3]); ("ECG", [4; 5])])
    "rec.csv" (Some "t") (Some "ppg") (Some "ECG") (Some 100)
    (Loader.init 128) =
  (Loader.Ok ([0; 1], [1; 2], [4; 5], 100),
   Loader.mkLoader (Some [1; 2]) (Some [4; 5]) (Some [0; 1]) 100).
Proof.
  unfold Loader.load_csv. loader_run.
  cbn -[Py.slice_to Loader.or_float].
  rewrite !slice_to_nat, !or_float_nonzero by lra. reflexivity.
Defined.

Lemma load_csv_result_witness :
  length [1; 2] = length [4; 5] /\
  (length [0; 1] <= length [1; 2])%nat.
Proof.
  destruct (load_csv_result _ _ _ _ _ _ _ _ _ _ _ _ load_csv_sample)
    as (H1 & H2 & _).
  split; assumption.
Defined.

Lemma load_csv_atomic_witness :
  Loader.init 128 = Loader.init 128.
Proof.
  apply (load_csv_atomic (fun _ => None) "missing.csv" None None None None
           (Loader.init 128) (Loader.init 128) Loader.LoadFailed).
  reflexivity.
Defined.

Lemma load_csv_infers_rate_witness :
  Loader.load_csv
    (fun _ => Some [("Time", map (fun i : nat => 0 + INR i * 0.01) (seq 0 3));
                    ("PPG", [1; 2; 3]); ("ECG", [4; 5; 6])])
    "rec.csv" (Some "Time") (Some "PPG") (Some "ECG") None (Loader.init 128) =
  (Loader.Ok (map (fun i : nat => 0 + INR i * 0.01) (seq 0 3),
              [1; 2; 3], [4; 5; 6], 1 / 0.01),
   Loader.mkLoader (Some [1; 2; 3]) (Some [4; 5; 6])
     (Some (map (fun i : nat => 0 + INR i * 0.01) (seq 0 3))) (1 / 0.01)).
Proof.
  apply (load_csv_infers_rate
           (fun _ => Some [("Time", map (fun i : nat => 0 + INR i * 0.01) (seq 0 3));
                           ("PPG", [1; 2; 3]); ("ECG", [4; 5; 6])])
           "rec.csv" "Time" "PPG" "ECG"
           [("Time", map (fun i : nat => 0 + INR i * 0.01) (seq 0 3));
            ("PPG", [1; 2; 3]); ("ECG", [4; 5; 6])]
           [1; 2; 3] [4; 5; 6] 0 0.01 3 (Loader.init 128)).
  - reflexivity.
  - reflexivity.
  - reflexivity.
  - reflexivity.
  - lra.
  - simpl. lia.
  - simpl. lia.
Defined.

Lemma load_csv_without_time_witness :
  Loader.load_csv
    (fun _ => Some [("ppg", [1; 2; 3]); ("ECG", [4; 5])])
    "rec.csv" None (Some "ppg") (Some "ECG") (Some 0) (Loader.init 128) =
  (Loader.Ok (Loader.arange_over 2 (Loader.or_float (Some 0) 128),
              [1; 2], [4; 5], Loader.or_float (Some 0) 128),
   Loader.mkLoader (Some [1; 2]) (Some [4; 5])
     (Some (Loader.arange_over 2 (Loader.or_float (Some 0) 128)))
     (Loader.or_float (Some 0) 128)).
Proof.
  apply (load_csv_without_time
           (fun _ => Some [("ppg", [1; 2; 3]); ("ECG", [4; 5])])
           "rec.csv" "ppg" "ECG" [("ppg", [1; 2; 3]); ("ECG", [4; 5])]
           [1; 2; 3] [4; 5] (Some 0) (Loader.init 128)).
  - reflexivity.
  - reflexivity.
  - reflexivity.
  - reflexivity.
Defined.
